(** * VaM bridge server: frame codec, command normalisation and routing

    A shallow embedding of the bridge engine of [VaMBridgeServer]
    ([core.py], [tcp_helpers.py], [ws_helpers.py], [ws_hub.py], [app.py])
    together with
    the properties its specification states about it.

    Conventions of the embedding:
    - a byte string is a [list byte]; a Python [str] is a list of code
      points; a parsed JSON document is a [pyval];
    - a function that may raise returns an [outcome];
    - what a socket will deliver is a [stream]: the list of segments the
      network hands over, in order, followed by end of file;
    - module-level dictionaries and sets are [gmap]s and [gset]s keyed by
      connection handles, and the socket objects behind the handles are
      part of the state;
    - one turn of a handler loop, and one run of [broadcast], is taken as
      a step that nothing interleaves with;
    - [print] writes to [sys.stdout], which raises [UnicodeEncodeError] at
      a character its encoding does not have; a [print] is modelled where
      it shows a value taken from a message and its exception is not caught
      on the spot, and is left out where its text is made of fixed text, a
      peer address and the text of an exception, which are ASCII (the
      close reason a browser may put in its closing frame is not part of
      the model);
    - the interpreter's [repr] and the [json] and UTF-8 codecs are an
      interface, [PyRuntime]; every property holds for each of its
      implementations, and one implementation runs the examples. *)

From Stdlib Require Import ZArith List Lia Ascii String SpecFloat DecimalString.
From coqutil Require Import Byte Word.LittleEndianList.
From Equations Require Import Equations.
From stdpp Require Import gmap list.

Local Open Scope Z_scope.

(** ** Exceptions and results *)

Inductive exn : Type :=
| ConnectionError      (* raised by [recv_exact] when the peer closed *)
| StructError          (* struct.error: value out of range for "<I" *)
| OSError              (* a send on a dead or closed socket *)
| AttributeError       (* [.get] on something that is not a dict *)
| TypeError            (* [dict(x)] on a number *)
| ValueError           (* [dict(x)] on a string that is not empty *)
| WsConnectionClosed   (* websockets.ConnectionClosed on [ws.send] *)
| UnicodeEncodeError.  (* [print] of a text [sys.stdout] cannot encode *)

Inductive outcome (A : Type) : Type :=
| Ret (a : A)
| Raise (e : exn).
Arguments Ret {A} a.
Arguments Raise {A} e.

#[global] Instance outcome_ret : MRet outcome := @Ret.
#[global] Instance outcome_bind : MBind outcome := fun A B k m =>
  match m with
  | Ret a => k a
  | Raise e => Raise e
  end.

Definition inspect {A} (a : A) : {b | a = b} := exist _ a eq_refl.

(** ** core.py: length-prefixed frames *)

Module Core.

(** What a socket still has to deliver: segments in arrival order; the
    empty list is a closed peer. *)
Definition stream := list (list byte).

Definition stream_bytes (rx : stream) : list byte := concat rx.

(** The sending half of a TCP socket: everything written so far and
    whether [sendall] still succeeds. *)
Record tcp_sock : Type := TcpSock {
  sent : list byte;
  writable : bool;
  closed : bool
}.

(** [conn.recv(k)]: at most [k] bytes of the next segment, [b""] once the
    peer has closed.  A segment that carries no bytes delivers nothing. *)
Fixpoint sock_recv (rx : stream) (k : nat) : list byte * stream :=
  match rx with
  | [] => ([], [])
  | [] :: rx' => sock_recv rx' k
  | c :: rx' =>
      if (length c <=? k)%nat then (c, rx')
      else (take k c, drop k c :: rx')
  end.

(** [conn.sendall(data)] *)
Definition sendall (s : tcp_sock) (data : list byte) : outcome tcp_sock :=
  if writable s && negb (closed s)
  then Ret (TcpSock (sent s ++ data) (writable s) (closed s))
  else Raise OSError.

(** [struct.pack("<I", n)] and [struct.unpack("<I", b)[0]] *)
Definition struct_pack_I (n : Z) : outcome (list byte) :=
  if (0 <=? n) && (n <? 2 ^ 32) then Ret (le_split 4 n) else Raise StructError.

Definition struct_unpack_I (b : list byte) : outcome Z :=
  if (length b =? 4)%nat then Ret (le_combine b) else Raise StructError.

(** [send_frame(conn, payload_json)] *)
Definition send_frame (s : tcp_sock) (payload_json : list byte)
  : outcome tcp_sock :=
  let length := Z.of_nat (List.length payload_json) in
  header ← struct_pack_I length;
  sendall s (header ++ payload_json).

(** The loop of [recv_exact]: [buf] grows until it holds [n] bytes. *)
Equations? recv_exact_loop (rx : stream) (n : nat) (buf : list byte)
  : outcome (list byte * stream) by wf (n - length buf)%nat lt :=
recv_exact_loop rx n buf with lt_dec (length buf) n := {
  | right _ => Ret (buf, rx)
  | left Hlt with inspect (sock_recv rx (n - length buf)) := {
      | exist _ ([], _) _ => Raise ConnectionError
      | exist _ (chunk, rx') _ => recv_exact_loop rx' n (buf ++ chunk) } }.
Proof. rewrite length_app. simpl. lia. Qed.

(** [recv_exact(conn, n)] *)
Definition recv_exact (rx : stream) (n : nat) : outcome (list byte * stream) :=
  recv_exact_loop rx n [].

(** [recv_frame(conn)] *)
Definition recv_frame (rx : stream) : outcome (list byte * stream) :=
  '(header, rx1) ← recv_exact rx 4;
  length ← struct_unpack_I header;
  recv_exact rx1 (Z.to_nat length).

(** The payload length announced by the first four bytes of a stream. *)
Definition announced_length (bs : list byte) : nat :=
  Z.to_nat (le_combine (take 4 bs)).

End Core.

(** ** What [recv_exact] and [recv_frame] return

    These facts come before [app.py] because the loop of
    [handle_tcp_client] terminates by them. *)

Section CoreFacts.
Import Core.

Lemma sock_recv_spec (rx : stream) (k : nat) :
  forall chunk rx', sock_recv rx k = (chunk, rx') ->
    chunk ++ stream_bytes rx' = stream_bytes rx /\
    (length chunk <= k)%nat /\
    (chunk = [] -> k = 0%nat \/ stream_bytes rx = []).
Proof.
  induction rx as [|c rx IH]; intros chunk rx' H; simpl in H.
  - inversion H; subst. repeat split; simpl; auto with lia.
  - destruct c as [|b c].
    + apply IH in H. exact H.
    + destruct (Nat.leb_spec (length (b :: c)) k) as [Hle|Hgt];
        inversion H; subst; clear H; unfold stream_bytes; simpl concat.
      * split; [reflexivity|]. split; [exact Hle|]. discriminate.
      * split.
        { rewrite app_assoc, take_drop. reflexivity. }
        split.
        { rewrite length_take. lia. }
        { intros E. left. destruct k; [reflexivity|discriminate]. }
Qed.

(** One turn of the [while] loop. *)
Lemma recv_exact_loop_unfold (rx : stream) (n : nat) (buf : list byte) :
  recv_exact_loop rx n buf =
  if decide (length buf < n)%nat then
    match sock_recv rx (n - length buf) with
    | ([], _) => Raise ConnectionError
    | (chunk, rx') => recv_exact_loop rx' n (buf ++ chunk)
    end
  else Ret (buf, rx).
Proof.
  funelim (recv_exact_loop rx n buf).
  - rewrite decide_False by lia. reflexivity.
  - rewrite decide_True by lia. rewrite e. reflexivity.
  - rewrite decide_True by lia. rewrite e. reflexivity.
Qed.

Lemma recv_exact_loop_spec (n : nat) :
  forall (m : nat) (rx : stream) (buf : list byte),
  (n - length buf)%nat = m ->
  if decide (m <= length (stream_bytes rx))%nat
  then exists rx', recv_exact_loop rx n buf = Ret (buf ++ take m (stream_bytes rx), rx')
                   /\ stream_bytes rx' = drop m (stream_bytes rx)
  else recv_exact_loop rx n buf = Raise ConnectionError.
Proof.
  induction m as [m IH] using lt_wf_ind. intros rx buf Hm.
  rewrite recv_exact_loop_unfold.
  destruct (decide (length buf < n)%nat) as [Hlt|Hge].
  - destruct (sock_recv rx (n - length buf)) as [chunk rx'] eqn:E.
    destruct (sock_recv_spec _ _ _ _ E) as (Hcat & Hlen & Hnil).
    destruct chunk as [|b chunk].
    + destruct (Hnil eq_refl) as [Hk|Hempty]; [lia|].
      rewrite Hempty. simpl. rewrite decide_False by lia. reflexivity.
    + rewrite <- Hcat. rewrite length_app.
      assert (Hm' : (n - length (buf ++ b :: chunk))%nat = (m - length (b :: chunk))%nat)
        by (rewrite length_app; lia).
      assert (Hdec : (m - length (b :: chunk) < m)%nat) by (simpl in *; lia).
      specialize (IH _ Hdec rx' (buf ++ b :: chunk) Hm').
      destruct (decide (m - length (b :: chunk) <= length (stream_bytes rx'))%nat) as [Hd|Hd].
      * rewrite decide_True by lia.
        destruct IH as (rx'' & Hr & Hs). exists rx''. rewrite Hr. split.
        { f_equal. f_equal. rewrite <- app_assoc. f_equal.
          rewrite take_app. rewrite (take_ge (b :: chunk) m) by lia. reflexivity. }
        { rewrite Hs. rewrite drop_app. rewrite (drop_ge (b :: chunk) m) by lia. reflexivity. }
      * rewrite decide_False by lia. exact IH.
  - replace m with 0%nat by lia. rewrite decide_True by lia.
    exists rx. rewrite take_0, drop_0, app_nil_r. auto.
Qed.

Lemma recv_exact_spec (rx : stream) (n : nat) :
  if decide (n <= length (stream_bytes rx))%nat
  then exists rx', recv_exact rx n = Ret (take n (stream_bytes rx), rx')
                   /\ stream_bytes rx' = drop n (stream_bytes rx)
  else recv_exact rx n = Raise ConnectionError.
Proof.
  unfold recv_exact.
  pose proof (recv_exact_loop_spec n n rx [] (Nat.sub_0_r n)) as H.
  exact H.
Qed.

Lemma recv_frame_spec (rx : stream) :
  let bs := stream_bytes rx in
  if decide (4 <= length bs /\ announced_length bs <= length (drop 4 bs))%nat
  then exists rx', recv_frame rx = Ret (take (announced_length bs) (drop 4 bs), rx')
                   /\ stream_bytes rx' = drop (announced_length bs) (drop 4 bs)
  else recv_frame rx = Raise ConnectionError.
Proof.
  intros bs. unfold recv_frame.
  pose proof (recv_exact_spec rx 4) as H4. fold bs in H4.
  destruct (decide (4 <= length bs)%nat) as [Hh|Hh].
  - destruct H4 as (rx1 & -> & Hrx1). simpl.
    unfold struct_unpack_I. rewrite length_take, Nat.min_l by lia. simpl.
    pose proof (recv_exact_spec rx1 (announced_length bs)) as Hn.
    rewrite Hrx1 in Hn. unfold announced_length in *.
    destruct (decide (Z.to_nat (le_combine (take 4 bs)) <= length (drop 4 bs))%nat).
    + rewrite decide_True by auto. exact Hn.
    + rewrite decide_False by tauto. exact Hn.
  - rewrite H4. rewrite decide_False by tauto. reflexivity.
Qed.

(** A frame that is not empty uses up part of the stream. *)
Lemma recv_frame_consumes (rx rx' : stream) (b : byte) (l : list byte) :
  recv_frame rx = Ret (b :: l, rx') ->
  (length (stream_bytes rx') < length (stream_bytes rx))%nat.
Proof.
  intros Hr. pose proof (recv_frame_spec rx) as H. simpl in H.
  destruct (decide _) as [[H4 Hn]|Hno] in H.
  - destruct H as (rx1 & Hr1 & Hs). rewrite Hr1 in Hr. inversion Hr; subst rx1.
    rewrite Hs, !length_drop. lia.
  - rewrite H in Hr. discriminate.
Qed.

End CoreFacts.

(** ** Python values

    The values [json.loads] produces, with the fragment of Python's
    semantics the bridge relies on: truthiness, [==], [dict.get],
    item assignment, [str.strip] and [str.endswith]. *)

Module Py.

(** A [str] is a sequence of Unicode code points. *)
Definition pystr := list N.

Definition lit (s : string) : pystr :=
  map N_of_ascii (list_ascii_of_string s).

#[warnings="-register-all"] Inductive pyval : Type :=
| PNone
| PBool (b : bool)
| PInt (z : Z)
| PFloat (f : spec_float)
| PStr (s : pystr)
| PList (l : list pyval)
| PDict (d : list (pystr * pyval)).

(** A [dict] keeps its items in insertion order. *)
Definition pydict := list (pystr * pyval).

(** The float [1.0] as a binary64 number. *)
Definition float_one : spec_float := S754_finite false 4503599627370496 (-52).

(** [bool(v)] *)
Definition py_truthy (v : pyval) : bool :=
  match v with
  | PNone => false
  | PBool b => b
  | PInt z => negb (z =? 0)
  | PFloat (S754_zero _) => false
  | PFloat _ => true
  | PStr s => negb (bool_decide (s = []))
  | PList l => negb (bool_decide (length l = 0%nat))
  | PDict d => negb (bool_decide (length d = 0%nat))
  end.

(** [a or b] *)
Definition py_or (a b : pyval) : pyval := if py_truthy a then a else b.

(** [d.get(k)], as an option, and [d.get(k, default)]; [k in d]. *)
Fixpoint dict_lookup (k : pystr) (d : pydict) : option pyval :=
  match d with
  | [] => None
  | (k', v) :: d' => if bool_decide (k' = k) then Some v else dict_lookup k d'
  end.

Definition py_get (d : pydict) (k : pystr) (dflt : pyval) : pyval :=
  default dflt (dict_lookup k d).

Definition py_in (k : pystr) (d : pydict) : bool :=
  bool_decide (is_Some (dict_lookup k d)).

(** [d[k] = v]: an existing key keeps its place, a new key goes last. *)
Fixpoint dict_set (k : pystr) (v : pyval) (d : pydict) : pydict :=
  match d with
  | [] => [(k, v)]
  | (k', v') :: d' =>
      if bool_decide (k' = k) then (k', v) :: d' else (k', v') :: dict_set k v d'
  end.

(** Exact comparison of an [int] with a [float]. *)
Definition float_eq_int (f : spec_float) (z : Z) : bool :=
  match f with
  | S754_zero _ => z =? 0
  | S754_finite s m e =>
      let v := if s then Z.neg m else Z.pos m in
      if 0 <=? e then z =? v * 2 ^ e else z * 2 ^ (- e) =? v
  | _ => false
  end.

(** [a == b] on two lists, given [==] on their elements. *)
Fixpoint all2 {A B} (f : A -> B -> bool) (l : list A) (m : list B) : bool :=
  match l, m with
  | [], [] => true
  | a :: l', b :: m' => f a b && all2 f l' m'
  | _, _ => false
  end.

(** [a == b] *)
Fixpoint py_eq (a b : pyval) : bool :=
  match a, b with
  | PNone, PNone => true
  | PBool x, PBool y => Z.b2z x =? Z.b2z y
  | PBool x, PInt y => Z.b2z x =? y
  | PInt x, PBool y => x =? Z.b2z y
  | PInt x, PInt y => x =? y
  | PBool x, PFloat g => float_eq_int g (Z.b2z x)
  | PInt x, PFloat g => float_eq_int g x
  | PFloat f, PBool y => float_eq_int f (Z.b2z y)
  | PFloat f, PInt y => float_eq_int f y
  | PFloat f, PFloat g => SFeqb f g
  | PStr s, PStr t => bool_decide (s = t)
  | PList l, PList m => all2 py_eq l m
  | PDict d, PDict e =>
      bool_decide (length d = length e) &&
      forallb (fun kv => match dict_lookup (fst kv) e with
                         | Some w => py_eq (snd kv) w
                         | None => false
                         end) d
  | _, _ => false
  end.

(** [c.isspace()] for one code point: the characters [str.strip()]
    removes. *)
Definition py_isspace (c : N) : bool :=
  ((9 <=? c) && (c <=? 13) || (28 <=? c) && (c <=? 32)
   || (c =? 133) || (c =? 160) || (c =? 5760)
   || (8192 <=? c) && (c <=? 8202)
   || (c =? 8232) || (c =? 8233) || (c =? 8239) || (c =? 8287)
   || (c =? 12288))%N.

Fixpoint lstrip (s : pystr) : pystr :=
  match s with
  | [] => []
  | c :: s' => if py_isspace c then lstrip s' else s
  end.

(** [s.strip()] *)
Definition py_strip (s : pystr) : pystr := rev (lstrip (rev (lstrip s))).

(** [v is None] *)
Definition is_none (v : pyval) : bool :=
  match v with PNone => true | _ => false end.

(** [s.endswith(suffix)] on strings, and as a method of any value:
    only a [str] has it. *)
Definition str_endswith (s suffix : pystr) : bool :=
  bool_decide (drop (length s - length suffix) s = suffix).

Definition py_endswith (v : pyval) (suffix : pystr) : outcome bool :=
  match v with
  | PStr s => Ret (str_endswith s suffix)
  | _ => Raise AttributeError
  end.

(** [dict(v)]: a mapping is copied, an empty string or list gives the
    empty dictionary, a number is not iterable and the characters of a
    string are not pairs.  Python reads a non-empty list as key and value
    pairs, whose keys need not be strings; such a dictionary is outside
    [pydict] and the list is refused here: the statements about [rotation]
    leave a non-empty list out by hypothesis. *)
Definition py_dict (v : pyval) : outcome pydict :=
  match v with
  | PDict d => Ret d
  | PStr [] | PList [] => Ret []
  | PStr _ => Raise ValueError
  | _ => Raise TypeError
  end.

(** What the interpreter and its [json] module provide.  Their code is not
    part of the bridge; the bridge is verified for every implementation. *)
Class PyRuntime : Type := {
  py_repr : pyval -> pystr;              (* repr(v) *)
  json_dumps : pyval -> pystr;           (* json.dumps(v) *)
  json_dumps_compact : pyval -> pystr;   (* json.dumps(v, separators=(",", ":")) *)
  json_loads : pystr -> option pyval;    (* json.loads(s); None when it raises *)
  utf8_encode : pystr -> list byte;      (* s.encode("utf-8") of serialised JSON *)
  utf8_decode : list byte -> option pystr; (* b.decode("utf-8"); None when it raises *)
  stdout_encodes : N -> bool             (* the encoding of sys.stdout has the character *)
}.

(** [str(v)]: a string is itself, anything else is shown by [repr]. *)
Definition py_str `{PyRuntime} (v : pyval) : pystr :=
  match v with
  | PStr s => s
  | _ => py_repr v
  end.

(** [sys.stdout] can write the text [s]. *)
Definition printable `{PyRuntime} (s : pystr) : bool :=
  forallb stdout_encodes s.

(** [print(f"... {v1} ... {v2} ...")] for the values [values] shown in the
    text, each formatted as [str] does.  The fixed parts of the text are
    ASCII and are written by every encoding; the call raises when one of
    the values has a character the encoding of [sys.stdout] lacks. *)
Definition py_print `{PyRuntime} (values : list pyval) : outcome unit :=
  if forallb (fun v => printable (py_str v)) values then Ret tt
  else Raise UnicodeEncodeError.

End Py.

(** ** The connection objects of the [websockets] library *)

Module Websockets.
Import Py.

(** A browser connection as the server sees it: the text messages sent to
    it so far, and whether the connection is still open, which is what
    decides whether [ws.send] succeeds. *)
Record web_sock : Type := WebSock {
  outbox : list pystr;
  ws_open : bool
}.


(** [await ws.send(data)] *)
Definition ws_send (s : web_sock) (data : pystr) : outcome web_sock :=
  if ws_open s then Ret (WebSock (outbox s ++ [data]) (ws_open s))
  else Raise WsConnectionClosed.

(** The socket object behind a handle; a handle without one behaves as a
    closed connection. *)
Definition web_sock_of (socks : gmap nat web_sock) (ws : nat) : web_sock :=
  default (WebSock [] false) (socks !! ws).

End Websockets.

(** ** tcp_helpers.py: controllers, payload and command name *)

Module TcpHelpers.
Import Py Core.

Section WithRuntime.
Context {rt : PyRuntime}.

(** The body of the [for] loop of [normalize_controllers] for one entry
    [c]: [None] when the entry is skipped by [continue]. *)
Definition normalize_controller (c : pydict) : outcome (option pydict) :=
  let ctrl := c in   (* dict(c): a copy, the caller's entry is not changed *)
  let cid := py_get ctrl (lit "id") PNone in
  if negb (py_truthy cid)
     || match cid with
        | PStr s => bool_decide (py_strip s = [])   (* isinstance(cid, str) *)
        | _ => false
        end
  then Ret None
  else
    let ctrl := dict_set (lit "id") (PStr (py_str cid)) ctrl in
    rot ← py_dict (py_or (py_get ctrl (lit "rotation") PNone) (PDict []));
    let rot :=
      match dict_lookup (lit "w") rot with
      | None | Some PNone => dict_set (lit "w") (PFloat float_one) rot
      | Some _ => rot
      end in
    let ctrl := dict_set (lit "rotation") (PDict rot) ctrl in
    Ret (Some ctrl).

Fixpoint normalize_loop (controllers normalized : list pydict)
  : outcome (list pydict) :=
  match controllers with
  | [] => Ret normalized
  | c :: rest =>
      r ← normalize_controller c;
      match r with
      | None => normalize_loop rest normalized
      | Some ctrl => normalize_loop rest (normalized ++ [ctrl])
      end
  end.

(** [normalize_controllers(controllers)], for a list of controller
    dictionaries ([controllers or []] is then [controllers]). *)
Definition normalize_controllers (controllers : list pydict)
  : outcome (list pydict) :=
  normalize_loop controllers [].

(** [send_set_controller(conn, controllers)].  [now_iso] is imported
    from [core] but not defined there; its result is the argument [ts]. *)
Definition send_set_controller (ts : pystr) (conn : tcp_sock)
    (controllers : list pydict) : outcome tcp_sock :=
  if bool_decide (length controllers = 0%nat) then Ret conn
  else
    controllers ← normalize_controllers controllers;
    if bool_decide (length controllers = 0%nat) then Ret conn
    else
      let payload := PDict [ (lit "cmd", PStr (lit "set_controller"));
                             (lit "data", PList (map PDict controllers));
                             (lit "ts", PStr ts) ] in
      let wire_plain := utf8_encode (json_dumps_compact payload) in
      send_frame conn wire_plain.

(** [extract_payload(obj)].  The function returns Python's [None] when
    there is no payload: [PNone]. *)
Definition extract_payload (obj : pydict) : pyval :=
  if py_in (lit "data") obj && negb (is_none (py_get obj (lit "data") PNone))
  then py_get obj (lit "data") PNone
  else if py_in (lit "morphs") obj
          && negb (is_none (py_get obj (lit "morphs") PNone))
  then py_get obj (lit "morphs") PNone
  else if py_in (lit "controllers") obj
          && negb (is_none (py_get obj (lit "controllers") PNone))
  then py_get obj (lit "controllers") PNone
  else PNone.

(** [normalize_cmd(cmd, obj, payload)] *)
Definition normalize_cmd (cmd : pyval) (obj : pydict) (payload : pyval)
  : outcome pyval :=
  is_result ← (if py_truthy cmd then py_endswith cmd (lit "_result")
               else Ret false);
  if (is_result : bool) then Ret cmd
  else if negb (is_none payload)
          && py_in (lit "morphs") obj
          && negb (py_eq cmd (PStr (lit "read_all_morphs"))
                   || py_eq cmd (PStr (lit "read_all_morphs_result")))
  then Ret (PStr (lit "read_all_morphs"))
  else if negb (is_none payload)
          && py_in (lit "controllers") obj
          && negb (py_eq cmd (PStr (lit "read_all_controllers"))
                   || py_eq cmd (PStr (lit "read_all_controllers_result")))
  then Ret (PStr (lit "read_all_controllers"))
  else Ret (py_or cmd (PStr (lit ""))).

(** The dictionary [send_ack] builds for the command [core]; [ts] is the
    result of [now_iso()]. *)
Definition ack_payload (ts : pystr) (core : pydict) : pyval :=
  PDict [ (lit "cmd", PStr (lit "acknowledge"));
          (lit "id", py_get core (lit "id") (PStr (lit "")));
          (lit "name", py_get core (lit "name") (PStr (lit "")));
          (lit "ack", py_or (py_get core (lit "cmd") (PStr (lit "")))
                            (PStr (lit "ok")));
          (lit "ts", PStr ts) ].

(** [send_ack(conn, core)]: whatever is raised inside is caught and
    printed, so the function returns the socket in both cases. *)
Definition send_ack (ts : pystr) (conn : tcp_sock) (core : pydict) : tcp_sock :=
  let wire_plain := utf8_encode (json_dumps_compact (ack_payload ts core)) in
  match send_frame conn wire_plain with
  | Ret conn' => conn'
  | Raise _ => conn
  end.

End WithRuntime.
End TcpHelpers.

(** ** ws_helpers.py: the live browser set and its broadcast *)

Module WsHelpers.
Import Py Websockets.

(** The module state: [ws_clients] and the socket objects it refers to. *)
Record hub : Type := Hub {
  ws_clients : gset nat;
  web_socks : gmap nat web_sock
}.

(** The loop [for ws in list(ws_clients)] of [broadcast], over the
    snapshot [l]. *)
Fixpoint broadcast_loop (data : pystr) (l : list nat) (h : hub) : hub :=
  match l with
  | [] => h
  | ws :: l' =>
      let h' :=
        match ws_send (web_sock_of (web_socks h) ws) data with
        | Ret s' => Hub (ws_clients h) (<[ws := s']> (web_socks h))
        | Raise _ => Hub (ws_clients h ∖ {[ws]}) (web_socks h)
        end in
      broadcast_loop data l' h'
  end.

(** [broadcast(message)].  Every value built from parsed JSON can be
    serialised, so the serialisation handler is never entered. *)
Definition broadcast `{PyRuntime} (message : pyval) (h : hub) : hub :=
  let data := json_dumps_compact message in
  broadcast_loop data (elements (ws_clients h)) h.

End WsHelpers.

(** ** app.py: the bridge *)

Module App.
Import Py Core Websockets.

(** The dictionary [{"id": client_id, "name": client_name}] stored for an
    identified connection. *)
Record identity : Type := Identity {
  ident_id : pyval;
  ident_name : pyval
}.

(** The module-level state of [app.py], the socket objects its handles
    refer to, and the broadcasts handed to the event loop with
    [run_coroutine_threadsafe] that have not run yet. *)
Record bridge : Type := Bridge {
  tcp_clients : gset nat;
  tcp_identities : gmap nat identity;
  ws_clients : gset nat;
  ws_identities : gmap nat identity;
  tcp_socks : gmap nat tcp_sock;
  web_socks : gmap nat web_sock;
  loop_tasks : list pyval
}.

Definition set_tcp_clients (f : gset nat -> gset nat) (b : bridge) : bridge :=
  Bridge (f (tcp_clients b)) (tcp_identities b) (ws_clients b)
         (ws_identities b) (tcp_socks b) (web_socks b) (loop_tasks b).
Definition set_tcp_identities (f : gmap nat identity -> gmap nat identity)
    (b : bridge) : bridge :=
  Bridge (tcp_clients b) (f (tcp_identities b)) (ws_clients b)
         (ws_identities b) (tcp_socks b) (web_socks b) (loop_tasks b).
Definition set_ws_clients (f : gset nat -> gset nat) (b : bridge) : bridge :=
  Bridge (tcp_clients b) (tcp_identities b) (f (ws_clients b))
         (ws_identities b) (tcp_socks b) (web_socks b) (loop_tasks b).
Definition set_ws_identities (f : gmap nat identity -> gmap nat identity)
    (b : bridge) : bridge :=
  Bridge (tcp_clients b) (tcp_identities b) (ws_clients b)
         (f (ws_identities b)) (tcp_socks b) (web_socks b) (loop_tasks b).
Definition set_tcp_socks (f : gmap nat tcp_sock -> gmap nat tcp_sock)
    (b : bridge) : bridge :=
  Bridge (tcp_clients b) (tcp_identities b) (ws_clients b)
         (ws_identities b) (f (tcp_socks b)) (web_socks b) (loop_tasks b).
Definition set_web_socks (f : gmap nat web_sock -> gmap nat web_sock)
    (b : bridge) : bridge :=
  Bridge (tcp_clients b) (tcp_identities b) (ws_clients b)
         (ws_identities b) (tcp_socks b) (f (web_socks b)) (loop_tasks b).
Definition set_loop_tasks (f : list pyval -> list pyval) (b : bridge) : bridge :=
  Bridge (tcp_clients b) (tcp_identities b) (ws_clients b)
         (ws_identities b) (tcp_socks b) (web_socks b) (f (loop_tasks b)).

(** A handle without a socket object behaves as a closed socket. *)
Definition tcp_sock_of (b : bridge) (conn : nat) : tcp_sock :=
  default (TcpSock [] false true) (tcp_socks b !! conn).

(** [send_frame(conn, payload)] on the socket behind a handle. *)
Definition send_frame_to (conn : nat) (payload : list byte) (b : bridge)
  : outcome bridge :=
  s' ← send_frame (tcp_sock_of b conn) payload;
  Ret (set_tcp_socks (insert conn s') b).

(** [await ws.send(data)] on the socket behind a handle. *)
Definition ws_send_to (ws : nat) (data : pystr) (b : bridge) : outcome bridge :=
  s' ← ws_send (web_sock_of (web_socks b) ws) data;
  Ret (set_web_socks (insert ws s') b).

(** [conn.close()], inside [try: ... except: pass]. *)
Definition close_conn (conn : nat) (b : bridge) : bridge :=
  let s := tcp_sock_of b conn in
  set_tcp_socks (insert conn (TcpSock (sent s) (writable s) true)) b.

Section WithRuntime.
Context {rt : PyRuntime}.

(** How one turn of a handler loop ends. *)
Inductive flow : Type :=
| Continue (b : bridge)           (* next turn *)
| Propagate (e : exn) (b : bridge). (* an exception leaves the loop *)

(** The acknowledgement built by both handlers. *)
Definition hello_ack (client_id client_name : pyval) : pyval :=
  PDict [ (lit "cmd", PStr (lit "acknowledge"));
          (lit "ack", PStr (lit "hello"));
          (lit "id", client_id);
          (lit "name", client_name) ].

(** [broadcast(message)] of [app.py]: the loop over the snapshot
    [list(ws_clients)], then the function. *)
Fixpoint broadcast_loop (data : pystr) (l : list nat) (b : bridge) : bridge :=
  match l with
  | [] => b
  | ws :: l' =>
      let b' :=
        match ws_send_to ws data b with
        | Ret b' => b'
        | Raise _ => set_ws_clients (fun s => s ∖ {[ws]}) b
        end in
      broadcast_loop data l' b'
  end.

Definition broadcast (message : pyval) (b : bridge) : bridge :=
  let data := json_dumps message in
  broadcast_loop data (elements (ws_clients b)) b.

(** [asyncio.run_coroutine_threadsafe(broadcast(message), loop)] *)
Definition schedule_broadcast (message : pyval) (b : bridge) : bridge :=
  set_loop_tasks (fun q => q ++ [message]) b.

(** The event loop runs the oldest scheduled broadcast. *)
Definition run_loop_task (b : bridge) : bridge :=
  match loop_tasks b with
  | [] => b
  | message :: q => broadcast message (set_loop_tasks (fun _ => q) b)
  end.

(** Lines 58 to 83 of [handle_tcp_client]: what is done with one parsed
    frame [obj]. *)
Definition tcp_dispatch (conn : nat) (obj : pyval) (b : bridge) : flow :=
  match obj with
  | PDict o =>
      let cmd := py_get o (lit "cmd") PNone in
      if py_eq cmd (PStr (lit "hello")) then
        let client_id := py_get o (lit "id") (PStr (lit "")) in
        let client_name := py_get o (lit "name") (PStr (lit "")) in
        let b := set_tcp_identities
                   (insert conn (Identity client_id client_name)) b in
        match py_print [client_id; client_name] with
        | Raise e => Propagate e b
        | Ret _ =>
            let ack := hello_ack client_id client_name in
            match send_frame_to conn (utf8_encode (json_dumps ack)) b with
            | Raise e => Propagate e b
            | Ret b => Continue (schedule_broadcast ack b)
            end
        end
      else
        (* ident = tcp_identities.get(conn, {}) *)
        let ident := tcp_identities b !! conn in
        match py_print [cmd; from_option ident_id PNone ident;
                        from_option ident_name PNone ident] with
        | Raise e => Propagate e b
        | Ret _ => Continue (schedule_broadcast obj b)
        end
  | _ => Propagate AttributeError b
  end.

(** The loop of [handle_tcp_client], reading from what the connection
    will deliver.  Every exception of [recv_frame], of the decoding and of
    [json.loads] ends the loop, and so does an empty frame. *)
Equations? tcp_loop (conn : nat) (rx : stream) (b : bridge)
  : bridge * option exn by wf (length (stream_bytes rx)) lt :=
tcp_loop conn rx b with inspect (recv_frame rx) := {
  | exist _ (Raise _) _ => (b, None)
  | exist _ (Ret ([], _)) _ => (b, None)
  | exist _ (Ret (frame, rx')) _
      with utf8_decode frame ≫= json_loads := {
      | None => (b, None)
      | Some obj with tcp_dispatch conn obj b := {
          | Continue b' => tcp_loop conn rx' b'
          | Propagate e b' => (b', Some e) } } }.
Proof. eapply recv_frame_consumes; eauto. Qed.

(** [handle_tcp_client(conn, addr, loop)]: the final state, and the
    exception that ended the thread if there was one. *)
Definition handle_tcp_client (conn : nat) (rx : stream) (b : bridge)
  : bridge * option exn :=
  let b := set_tcp_clients (fun s => s ∪ {[conn]}) b in
  let '(b, e) := tcp_loop conn rx b in
  (* finally *)
  let b := set_tcp_clients (fun s => s ∖ {[conn]}) b in
  let b := set_tcp_identities (delete conn) b in
  let b := close_conn conn b in
  (b, e).

(** The test of line 153 for one connection.  An identity dictionary has
    two keys, so [ident] is true exactly when the connection has one. *)
Definition is_target (b : bridge) (target_id target_name : pyval)
    (conn : nat) : bool :=
  match tcp_identities b !! conn with
  | Some ident =>
      py_eq (ident_id ident) target_id && py_eq (ident_name ident) target_name
  | None => false
  end.

(** The loop [for conn in list(tcp_clients)] of [ws_handler].  The
    [print] after [send_frame] is inside the [try]: what it raises is
    caught with what [send_frame] raises, after the frame was written. *)
Fixpoint forward_loop (target_id target_name : pyval) (wire : list byte)
    (l : list nat) (b : bridge) : bridge :=
  match l with
  | [] => b
  | conn :: l' =>
      let b' :=
        if is_target b target_id target_name conn then
          match send_frame_to conn wire b with
          | Ret b' => b'
          | Raise _ => b
          end
        else b in
      forward_loop target_id target_name wire l' b'
  end.

(** Lines 128 to 164 of [ws_handler]: what is done with one parsed
    message [obj]. *)
Definition ws_dispatch (ws : nat) (obj : pyval) (b : bridge) : flow :=
  match obj with
  | PDict o =>
      let cmd := py_get o (lit "cmd") PNone in
      if py_eq cmd (PStr (lit "hello")) then
        let client_id := py_get o (lit "id") (PStr (lit "")) in
        let client_name := py_get o (lit "name") (PStr (lit "")) in
        let b := set_ws_identities
                   (insert ws (Identity client_id client_name)) b in
        match py_print [client_id; client_name] with
        | Raise e => Propagate e b
        | Ret _ =>
            let ack := hello_ack client_id client_name in
            match ws_send_to ws (json_dumps ack) b with
            | Raise e => Propagate e b
            | Ret b => Continue b
            end
        end
      else
        let target_id := py_get o (lit "id") PNone in
        let target_name := py_get o (lit "name") PNone in
        let wire := utf8_encode (json_dumps obj) in
        Continue (forward_loop target_id target_name wire
                    (elements (tcp_clients b)) b)
  | _ => Propagate AttributeError b
  end.

(** The loop [async for msg in ws]; a message that does not parse is
    skipped. *)
Fixpoint ws_loop (ws : nat) (msgs : list pystr) (b : bridge)
  : bridge * option exn :=
  match msgs with
  | [] => (b, None)
  | msg :: msgs' =>
      match json_loads msg with
      | None => ws_loop ws msgs' b
      | Some obj =>
          match ws_dispatch ws obj b with
          | Continue b' => ws_loop ws msgs' b'
          | Propagate e b' => (b', Some e)
          end
      end
  end.

(** [ws_handler(ws)] *)
Definition ws_handler (ws : nat) (msgs : list pystr) (b : bridge)
  : bridge * option exn :=
  let b := set_ws_clients (fun s => s ∪ {[ws]}) b in
  let '(b, e) := ws_loop ws msgs b in
  (* finally *)
  let b := set_ws_clients (fun s => s ∖ {[ws]}) b in
  let b := set_ws_identities (delete ws) b in
  (b, e).

End WithRuntime.
End App.

(** ** ws_hub.py: the browser handler over the state of ws_helpers.py *)

Module WsHub.
Import Py Websockets.

(** The dictionary stored in [ws_identities] for an identified browser. *)
Record browser_identity : Type := BrowserIdentity {
  browser_id : pyval;
  browser_name : pyval;
  browser_version : pyval
}.

(** The state the handler runs in: [ws_clients] with the socket objects,
    [ws_identities], and whatever the forward callback works on (the TCP
    side), of type [T]. *)
Record world (T : Type) : Type := World {
  hub : WsHelpers.hub;
  ws_identities : gmap nat browser_identity;
  tcp_side : T
}.
Arguments World {T}.
Arguments hub {T}.
Arguments ws_identities {T}.
Arguments tcp_side {T}.

(** What the handler does after a message: go on with the loop, or leave
    it through the outer [except]. *)
Inductive step (T : Type) : Type :=
| Next (w : world T)
| Leave (w : world T).
Arguments Next {T}.
Arguments Leave {T}.

Section WithRuntime.
Context {rt : PyRuntime} {T : Type}.

(** The value of [_forward_cb]: [None], or a coroutine function that
    changes the state and may raise. *)
Definition callback : Type := option (pyval -> world T -> world T * option exn).

(** [forward_to_tcp(obj)] of [ws_helpers.py]: what the callback raises is
    caught and printed. *)
Definition forward_to_tcp (forward_cb : callback) (obj : pyval) (w : world T)
  : world T :=
  match forward_cb with
  | None => w
  | Some cb => fst (cb obj w)
  end.

Definition set_clients (f : gset nat -> gset nat) (w : world T) : world T :=
  World (WsHelpers.Hub (f (WsHelpers.ws_clients (hub w)))
                       (WsHelpers.web_socks (hub w)))
        (ws_identities w) (tcp_side w).

Definition set_identities
    (f : gmap nat browser_identity -> gmap nat browser_identity)
    (w : world T) : world T :=
  World (hub w) (f (ws_identities w)) (tcp_side w).

(** [await ws.send(data)] inside [try ... except Exception]. *)
Definition try_send (ws : nat) (data : pystr) (w : world T) : world T :=
  match ws_send (web_sock_of (WsHelpers.web_socks (hub w)) ws) data with
  | Ret s' => World (WsHelpers.Hub (WsHelpers.ws_clients (hub w))
                                   (<[ws := s']> (WsHelpers.web_socks (hub w))))
                    (ws_identities w) (tcp_side w)
  | Raise _ => w
  end.

(** The acknowledgement of [hello]. *)
Definition ack (client_id client_name : pyval) : pyval :=
  PDict [ (lit "cmd", PStr (lit "acknowledge"));
          (lit "ack", PStr (lit "hello"));
          (lit "id", client_id);
          (lit "name", client_name) ].

(** Lines 58 to 97 of [ws_handler]: one parsed message.  A JSON value
    that is not an object has no [get]; the [AttributeError] ends the
    loop, and so does what the [print] of the identity raises. *)
Definition dispatch (forward_cb : callback) (ws : nat) (obj : pyval)
    (w : world T) : step T :=
  match obj with
  | PDict o =>
      let cmd := py_get o (lit "cmd") PNone in
      if negb (py_truthy cmd) then Next w
      else if py_eq cmd (PStr (lit "hello")) then
        let w := set_identities
                   (insert ws (BrowserIdentity
                                 (py_get o (lit "id") (PStr (lit "")))
                                 (py_get o (lit "name") (PStr (lit "")))
                                 (py_get o (lit "version") (PStr (lit ""))))) w in
        match py_print [py_get o (lit "id") (PStr (lit ""));
                        py_get o (lit "name") (PStr (lit ""));
                        py_get o (lit "version") (PStr (lit ""))] with
        | Raise _ => Leave w
        | Ret _ =>
            let ack := ack (py_get o (lit "id") (PStr (lit "")))
                           (py_get o (lit "name") (PStr (lit ""))) in
            Next (try_send ws (json_dumps_compact ack) w)
        end
      else Next (forward_to_tcp forward_cb obj w)
  | _ => Leave w
  end.

(** The loop [async for msg in ws]. *)
Fixpoint loop (forward_cb : callback) (ws : nat) (msgs : list pystr)
    (w : world T) : world T :=
  match msgs with
  | [] => w
  | msg :: msgs' =>
      match json_loads msg with
      | None => loop forward_cb ws msgs' w
      | Some obj =>
          match dispatch forward_cb ws obj w with
          | Next w' => loop forward_cb ws msgs' w'
          | Leave w' => w'
          end
      end
  end.

(** [ws_handler(ws)]: nothing leaves the handler, the outer [except]
    catches what the loop raises. *)
Definition ws_handler (forward_cb : callback) (ws : nat) (msgs : list pystr)
    (w : world T) : world T :=
  let w := set_clients (fun s => s ∪ {[ws]}) w in
  let w := loop forward_cb ws msgs w in
  (* finally *)
  let w := set_clients (fun s => s ∖ {[ws]}) w in
  set_identities (delete ws) w.

End WithRuntime.
End WsHub.

(** ** A reference runtime

    One implementation of [PyRuntime], used to run the model on concrete
    inputs.  It writes JSON and [repr] text as CPython does and reads JSON
    text, with two limits: a float is written with all its digits (which
    is what CPython prints for whole numbers below 10^16 and for short
    binary fractions), and a number with a fraction or an exponent is not
    read.  Its [sys.stdout] is a UTF-8 stream: it writes every character
    but the surrogates. *)

Module RefRuntime.
Import Py.

Definition decimal (z : Z) : pystr :=
  lit (NilZero.string_of_int (Z.to_int z)).

Definition hex_digit (n : N) : N :=
  (if n <? 10 then 48 + n else 87 + n)%N.

Definition hex2 (n : N) : pystr :=
  [hex_digit (n / 16 mod 16); hex_digit (n mod 16)]%N.

Definition hex4 (n : N) : pystr :=
  (hex2 (n / 256) ++ hex2 (n mod 256))%N.

Fixpoint join (sep : pystr) (l : list pystr) : pystr :=
  match l with
  | [] => []
  | [x] => x
  | x :: l' => x ++ sep ++ join sep l'
  end.

Fixpoint strip_zeros (s : pystr) : pystr :=
  match s with
  | [] => []
  | c :: s' => if (c =? 48)%N then strip_zeros s' else s
  end.

(** The digits of a float; [nan] and [inf] name the special values. *)
Definition float_text (nan inf : string) (f : spec_float) : pystr :=
  match f with
  | S754_zero s => lit (if s then "-0.0" else "0.0")
  | S754_infinity s => lit (if s then "-" else "") ++ lit inf
  | S754_nan => lit nan
  | S754_finite s m e =>
      lit (if s then "-" else "") ++
      (if 0 <=? e then decimal (Z.pos m * 2 ^ e) ++ lit ".0"
       else
         let k := - e in
         let whole := Z.pos m / 2 ^ k in
         let part := Z.pos m mod 2 ^ k in
         if part =? 0 then decimal whole ++ lit ".0"
         else
           let digits := decimal (part * 5 ^ k) in
           let padded :=
             repeat 48%N (Z.to_nat k - length digits) ++ digits in
           decimal whole ++ lit "." ++ rev (strip_zeros (rev padded)))
  end.

(** One character of a JSON string, with [ensure_ascii]. *)
Definition json_char (c : N) : pystr :=
  (if c =? 34 then [92; 34]
   else if c =? 92 then [92; 92]
   else if c =? 10 then [92; 110]
   else if c =? 13 then [92; 114]
   else if c =? 9 then [92; 116]
   else if c =? 8 then [92; 98]
   else if c =? 12 then [92; 102]
   else if (c <? 32) || (126 <? c) then
     if c <? 65536 then [92; 117] ++ hex4 c
     else
       let v := c - 65536 in
       [92; 117] ++ hex4 (55296 + v / 1024)
       ++ [92; 117] ++ hex4 (56320 + v mod 1024)
   else [c])%N.

Definition json_string (s : pystr) : pystr :=
  [34%N] ++ flat_map json_char s ++ [34%N].

Fixpoint json_text (item_sep key_sep : pystr) (v : pyval) : pystr :=
  match v with
  | PNone => lit "null"
  | PBool b => lit (if b then "true" else "false")
  | PInt z => decimal z
  | PFloat f => float_text "NaN" "Infinity" f
  | PStr s => json_string s
  | PList l =>
      lit "[" ++ join item_sep (map (json_text item_sep key_sep) l) ++ lit "]"
  | PDict d =>
      lit "{" ++
      join item_sep
        (map (fun kv => json_string (fst kv) ++ key_sep
                        ++ json_text item_sep key_sep (snd kv)) d)
      ++ lit "}"
  end.

(** [repr] of a string. *)
Definition repr_char (quote : N) (c : N) : pystr :=
  (if (c =? quote) || (c =? 92) then [92; c]
   else if c =? 10 then [92; 110]
   else if c =? 13 then [92; 114]
   else if c =? 9 then [92; 116]
   else if (c <? 32) || (c =? 127) then [92; 120] ++ hex2 c
   else [c])%N.

Definition repr_string (s : pystr) : pystr :=
  let quote :=
    if existsb (N.eqb 39) s && negb (existsb (N.eqb 34) s) then 34%N else 39%N in
  [quote] ++ flat_map (repr_char quote) s ++ [quote].

Fixpoint repr_text (v : pyval) : pystr :=
  match v with
  | PNone => lit "None"
  | PBool b => lit (if b then "True" else "False")
  | PInt z => decimal z
  | PFloat f => float_text "nan" "inf" f
  | PStr s => repr_string s
  | PList l => lit "[" ++ join (lit ", ") (map repr_text l) ++ lit "]"
  | PDict d =>
      lit "{" ++
      join (lit ", ")
        (map (fun kv => repr_string (fst kv) ++ lit ": " ++ repr_text (snd kv)) d)
      ++ lit "}"
  end.

(** UTF-8 *)
Definition to_byte (n : N) : byte := byte.of_Z (Z.of_N n).
Definition of_byte (b : byte) : N := Z.to_N (byte.unsigned b).

Definition utf8_char (c : N) : list byte :=
  (if c <? 128 then [to_byte c]
   else if c <? 2048 then [to_byte (192 + c / 64); to_byte (128 + c mod 64)]
   else if c <? 65536 then
     [to_byte (224 + c / 4096); to_byte (128 + c / 64 mod 64);
      to_byte (128 + c mod 64)]
   else
     [to_byte (240 + c / 262144); to_byte (128 + c / 4096 mod 64);
      to_byte (128 + c / 64 mod 64); to_byte (128 + c mod 64)])%N.

Definition continuation (b : byte) : option N :=
  let x := of_byte b in
  if ((128 <=? x) && (x <? 192))%N then Some (x - 128)%N else None.

Fixpoint utf8_text (bs : list byte) : option pystr :=
  match bs with
  | [] => Some []
  | b0 :: r0 =>
      let x0 := of_byte b0 in
      if (x0 <? 128)%N then cons x0 <$> utf8_text r0
      else if ((194 <=? x0) && (x0 <? 224))%N then
        match r0 with
        | b1 :: r1 =>
            x1 ← continuation b1;
            cons ((x0 - 192) * 64 + x1)%N <$> utf8_text r1
        | _ => None
        end
      else if ((224 <=? x0) && (x0 <? 240))%N then
        match r0 with
        | b1 :: b2 :: r2 =>
            x1 ← continuation b1;
            x2 ← continuation b2;
            let c := ((x0 - 224) * 4096 + x1 * 64 + x2)%N in
            if ((c <? 2048) || (55296 <=? c) && (c <? 57344))%N then None
            else cons c <$> utf8_text r2
        | _ => None
        end
      else if ((240 <=? x0) && (x0 <? 245))%N then
        match r0 with
        | b1 :: b2 :: b3 :: r3 =>
            x1 ← continuation b1;
            x2 ← continuation b2;
            x3 ← continuation b3;
            let c := ((x0 - 240) * 262144 + x1 * 4096 + x2 * 64 + x3)%N in
            if ((c <? 65536) || (1114111 <? c))%N then None
            else cons c <$> utf8_text r3
        | _ => None
        end
      else None
  end.

(** Reading JSON *)
Definition is_ws (c : N) : bool :=
  ((c =? 32) || (c =? 9) || (c =? 10) || (c =? 13))%N.

Fixpoint skip_ws (s : pystr) : pystr :=
  match s with
  | [] => []
  | c :: s' => if is_ws c then skip_ws s' else s
  end.

Definition hex_value (c : N) : option N :=
  (if (48 <=? c) && (c <=? 57) then Some (c - 48)
   else if (97 <=? c) && (c <=? 102) then Some (c - 87)
   else if (65 <=? c) && (c <=? 70) then Some (c - 55)
   else None)%N.

Definition hex4_value (a b c d : N) : option N :=
  a ← hex_value a; b ← hex_value b; c ← hex_value c; d ← hex_value d;
  Some (a * 4096 + b * 256 + c * 16 + d)%N.

Definition unescape (c : N) : option N :=
  (if c =? 34 then Some 34 else if c =? 92 then Some 92
   else if c =? 47 then Some 47 else if c =? 98 then Some 8
   else if c =? 102 then Some 12 else if c =? 110 then Some 10
   else if c =? 114 then Some 13 else if c =? 116 then Some 9
   else None)%N.

(** The rest of a string after its opening quote; [acc] is what was read,
    last character first. *)
Fixpoint read_string (s : pystr) (acc : pystr) : option (pystr * pystr) :=
  match s with
  | [] => None
  | c :: rest =>
      if (c =? 34)%N then Some (rev acc, rest)
      else if (c =? 92)%N then
        match rest with
        | e :: rest1 =>
            if (e =? 117)%N then
              match rest1 with
              | h1 :: h2 :: h3 :: h4 :: rest2 =>
                  hi ← hex4_value h1 h2 h3 h4;
                  let single := read_string rest2 (hi :: acc) in
                  if ((55296 <=? hi) && (hi <? 56320))%N then
                    match rest2 with
                    | b :: u :: l1 :: l2 :: l3 :: l4 :: rest3 =>
                        match hex4_value l1 l2 l3 l4 with
                        | Some lo =>
                            if ((b =? 92) && (u =? 117)
                                && (56320 <=? lo) && (lo <? 57344))%N
                            then read_string rest3
                                   ((65536 + (hi - 55296) * 1024 + (lo - 56320))%N
                                    :: acc)
                            else single
                        | None => single
                        end
                    | _ => single
                    end
                  else single
              | _ => None
              end
            else
              u ← unescape e;
              read_string rest1 (u :: acc)
        | [] => None
        end
      else if (c <? 32)%N then None
      else read_string rest (c :: acc)
  end.

Definition is_digit (c : N) : bool := ((48 <=? c) && (c <=? 57))%N.

Fixpoint read_digits (s : pystr) (acc : Z) : Z * pystr :=
  match s with
  | c :: s' =>
      if is_digit c then read_digits s' (acc * 10 + Z.of_N (c - 48)) else (acc, s)
  | [] => (acc, [])
  end.

(** An integer; a number that goes on with a fraction or an exponent is
    not read. *)
Definition read_int (s : pystr) : option (Z * pystr) :=
  match s with
  | c :: s' =>
      if negb (is_digit c) then None
      else
        let '(n, rest) := if (c =? 48)%N then (0, s') else read_digits s 0 in
        match rest with
        | d :: _ =>
            if ((d =? 46) || (d =? 101) || (d =? 69))%N then None
            else Some (n, rest)
        | [] => Some (n, rest)
        end
  | [] => None
  end.

Definition read_word (w : string) (v : pyval) (s : pystr)
  : option (pyval * pystr) :=
  if bool_decide (take (length (lit w)) s = lit w)
  then Some (v, drop (length (lit w)) s) else None.

Fixpoint read_value (fuel : nat) (s : pystr) : option (pyval * pystr) :=
  match fuel with
  | O => None
  | S fuel' =>
      match skip_ws s with
      | [] => None
      | c :: rest =>
          if (c =? 34)%N then
            '(str, r) ← read_string rest []; Some (PStr str, r)
          else if (c =? 91)%N then
            match skip_ws rest with
            | d :: r' =>
                if (d =? 93)%N then Some (PList [], r')
                else read_items fuel' rest []
            | [] => None
            end
          else if (c =? 123)%N then
            match skip_ws rest with
            | d :: r' =>
                if (d =? 125)%N then Some (PDict [], r')
                else read_members fuel' rest []
            | [] => None
            end
          else if (c =? 110)%N then read_word "null" PNone (c :: rest)
          else if (c =? 116)%N then read_word "true" (PBool true) (c :: rest)
          else if (c =? 102)%N then read_word "false" (PBool false) (c :: rest)
          else if (c =? 78)%N then read_word "NaN" (PFloat S754_nan) (c :: rest)
          else if (c =? 73)%N then
            read_word "Infinity" (PFloat (S754_infinity false)) (c :: rest)
          else if (c =? 45)%N then
            match read_word "Infinity" (PFloat (S754_infinity true)) rest with
            | Some r => Some r
            | None => '(n, r) ← read_int rest; Some (PInt (- n), r)
            end
          else '(n, r) ← read_int (c :: rest); Some (PInt n, r)
      end
  end
with read_items (fuel : nat) (s : pystr) (acc : list pyval)
  : option (pyval * pystr) :=
  match fuel with
  | O => None
  | S fuel' =>
      '(v, r) ← read_value fuel' s;
      match skip_ws r with
      | d :: r' =>
          if (d =? 44)%N then read_items fuel' r' (v :: acc)
          else if (d =? 93)%N then Some (PList (rev (v :: acc)), r')
          else None
      | [] => None
      end
  end
with read_members (fuel : nat) (s : pystr) (acc : pydict)
  : option (pyval * pystr) :=
  match fuel with
  | O => None
  | S fuel' =>
      match skip_ws s with
      | q :: r =>
          if negb (q =? 34)%N then None
          else
            '(k, r) ← read_string r [];
            match skip_ws r with
            | colon :: r =>
                if negb (colon =? 58)%N then None
                else
                  '(v, r) ← read_value fuel' r;
                  match skip_ws r with
                  | d :: r' =>
                      if (d =? 44)%N
                      then read_members fuel' r' (dict_set k v acc)
                      else if (d =? 125)%N
                      then Some (PDict (dict_set k v acc), r')
                      else None
                  | [] => None
                  end
            | [] => None
            end
      | [] => None
      end
  end.

Definition read_json (s : pystr) : option pyval :=
  '(v, r) ← read_value (2 * length s + 2) s;
  if bool_decide (skip_ws r = []) then Some v else None.

#[global] Instance ref_runtime : PyRuntime := {
  py_repr := repr_text;
  json_dumps := json_text (lit ", ") (lit ": ");
  json_dumps_compact := json_text (lit ",") (lit ":");
  json_loads := read_json;
  utf8_encode := flat_map utf8_char;
  utf8_decode := utf8_text;
  stdout_encodes := fun c => negb ((55296 <=? c) && (c <=? 57343))%N
}.

End RefRuntime.

(** * Vocabulary of the properties

    The predicates the statements below are written with, and the
    concrete inputs they are run on. *)

(** ** Envelopes and command names *)

Section CommandTerms.
Import Py TcpHelpers.
Context {rt : PyRuntime}.

(** The envelope [obj] carries key [k] with a value that is not null. *)
Definition carries (obj : pydict) (k : pystr) (v : pyval) : Prop :=
  dict_lookup k obj = Some v /\ v <> PNone.

(** The envelope [obj] has no key [k], or has it with the value null. *)
Definition lacks (obj : pydict) (k : pystr) : Prop :=
  dict_lookup k obj = None \/ dict_lookup k obj = Some PNone.

(** The command name as [normalize_cmd] receives it: a string, or [None]
    when the envelope has none. *)
Definition cmd_value (cmd : option pystr) : pyval :=
  match cmd with
  | Some s => PStr s
  | None => PNone
  end.

(** [cmd] ends with [_result]. *)
Definition is_result_name (cmd : option pystr) : Prop :=
  match cmd with
  | Some s => str_endswith s (lit "_result") = true
  | None => False
  end.

End CommandTerms.

(** ** Controllers *)

Section ControllerTerms.
Import Py Core TcpHelpers.
Context {rt : PyRuntime}.







End ControllerTerms.

(** ** The two broadcasts *)

Section BroadcastTerms.
Import Py Websockets.
Context {rt : PyRuntime}.

Definition hub_of (b : App.bridge) : WsHelpers.hub :=
  WsHelpers.Hub (App.ws_clients b) (App.web_socks b).

Definition with_hub (h : WsHelpers.hub) (b : App.bridge) : App.bridge :=
  App.Bridge (App.tcp_clients b) (App.tcp_identities b) (WsHelpers.ws_clients h)
             (App.ws_identities b) (App.tcp_socks b) (WsHelpers.web_socks h)
             (App.loop_tasks b).

End BroadcastTerms.

(** ** Routing *)

Section RoutingTerms.
Import Py Core Websockets App.
Context {rt : PyRuntime}.

(** The socket after [send_frame(conn, wire)] inside [try ... except]. *)
Definition after_send (s : tcp_sock) (wire : list byte) : tcp_sock :=
  match send_frame s wire with
  | Ret s' => s'
  | Raise _ => s
  end.

(** Connection [conn] has declared the identity [(id, name)]. *)
Definition registered_as (b : bridge) (conn : nat) (id name : pyval) : Prop :=
  exists ident, tcp_identities b !! conn = Some ident /\
                ident_id ident = id /\ ident_name ident = name.

(** An addressing field of an envelope: a string, or absent. *)
Definition text_or_absent (v : pyval) : Prop :=
  v = PNone \/ exists s, v = PStr s.


(** [sys.stdout] can show the value [v] in a message. *)
Definition shows (v : pyval) : Prop := printable (py_str v) = true.

End RoutingTerms.

(** ** Concrete inputs *)

Section Inputs.
Import Py Core Websockets TcpHelpers App RefRuntime.

(** ASCII text as bytes, and JSON text written with ['] for the quote. *)
Definition ascii_bytes (s : string) : list byte :=
  map byte_of_ascii (list_ascii_of_string s).

Definition json_lit (s : string) : pystr :=
  map (fun c => if (c =? 39)%N then 34%N else c) (lit s).

Definition json_bytes (s : string) : list byte := utf8_encode (json_lit s).

Definition fresh_sock : tcp_sock := TcpSock [] true false.

(** A payload with its length prefix. *)
Definition framed (payload : list byte) : list byte :=
  le_split 4 (Z.of_nat (length payload)) ++ payload.

(** A prefix that announces five bytes, followed by three. *)
Definition short_stream : stream :=
  [[Byte.x05; Byte.x00]; [Byte.x00; Byte.x00; Byte.x61]; [Byte.x62; Byte.x63]].

Definition morphs_envelope : pydict :=
  [ (lit "cmd", PStr (lit "x")); (lit "morphs", PList [PInt 1]) ].

(** The list of the specification's example:
    [[{id: l_hand}, {id: (empty)}, {id: r_hand, rotation: {x: 0, y: 0, z: 0}}]]. *)
Definition spec_controllers : list pydict :=
  [ [ (lit "id", PStr (lit "l_hand")) ];
    [ (lit "id", PStr []) ];
    [ (lit "id", PStr (lit "r_hand"));
      (lit "rotation",
       PDict [ (lit "x", PInt 0); (lit "y", PInt 0); (lit "z", PInt 0) ]) ] ].

Definition plugin_a : identity := Identity (PStr (lit "p1")) (PStr (lit "PluginA")).
Definition plugin_b : identity := Identity (PStr (lit "p2")) (PStr (lit "PluginB")).

(** Three native connections: 1 is [(p1, PluginA)], 2 is [(p2, PluginB)],
    3 has not said hello.  Two browsers: 10 can be written to, 11 cannot. *)
Definition demo_bridge : bridge :=
  Bridge {[ 1%nat; 2%nat; 3%nat ]}
         (<[1%nat := plugin_a]> (<[2%nat := plugin_b]> ∅))
         {[ 10%nat; 11%nat ]}
         ∅
         (<[1%nat := fresh_sock]> (<[2%nat := fresh_sock]> (<[3%nat := fresh_sock]> ∅)))
         (<[10%nat := WebSock [] true]> (<[11%nat := WebSock [] false]> ∅))
         [].

(** A browser asks plugin [(p1, PluginA)] for its morphs. *)
Definition morphs_query : pydict :=
  [ (lit "cmd", PStr (lit "read_all_morphs"));
    (lit "id", PStr (lit "p1")); (lit "name", PStr (lit "PluginA")) ].

Definition morphs_query_text : string :=
  "{'cmd': 'read_all_morphs', 'id': 'p1', 'name': 'PluginA'}".

(** A browser sends controllers to plugin [(p1, PluginA)]; the second
    entry has an empty [id] and the first has no [rotation]. *)
Definition raw_controllers : list pydict :=
  [ [ (lit "id", PStr (lit "l_hand")) ]; [ (lit "id", PStr []) ] ].

Definition set_controller_envelope : pydict :=
  [ (lit "cmd", PStr (lit "set_controller"));
    (lit "id", PStr (lit "p1")); (lit "name", PStr (lit "PluginA"));
    (lit "controllers", PList (map PDict raw_controllers)) ].

Definition set_controller_text : string :=
  "{'cmd': 'set_controller', 'id': 'p1', 'name': 'PluginA', 'controllers': [{'id': 'l_hand'}, {'id': ''}]}".

(** A plugin says hello on connection 3. *)
Definition hello_envelope : pydict :=
  [ (lit "cmd", PStr (lit "hello"));
    (lit "id", PStr (lit "p3")); (lit "name", PStr (lit "PluginC")) ].

Definition hello_ack_text : string :=
  "{'cmd': 'acknowledge', 'ack': 'hello', 'id': 'p3', 'name': 'PluginC'}".





(** A hello whose [id] is the lone surrogate U+D800, as JSON text and as
    [json.loads] reads it. *)
Definition surrogate_hello_text : string :=
  "{'cmd': 'hello', 'id': '\ud800', 'name': 'PluginC'}".

Definition surrogate_hello : pydict :=
  [ (lit "cmd", PStr (lit "hello"));
    (lit "id", PStr [55296%N]); (lit "name", PStr (lit "PluginC")) ].

(** A frame of length zero, with more data behind it. *)
Definition empty_frame_stream : stream :=
  [ [Byte.x00; Byte.x00]; [Byte.x00; Byte.x00; Byte.x7b]; [Byte.x7d] ].

End Inputs.

(** ** Handlers: what a turn leaves behind *)

Section HandlerTerms.
Import Py Core Websockets App.
Context {rt : PyRuntime}.

(** The state a turn of a handler loop ends in, however it ends. *)
Definition state_after (f : flow) : bridge :=
  match f with
  | Continue b => b
  | Propagate _ b => b
  end.

(** Every native connection with an identity is a tracked connection. *)
Definition registry_consistent (b : bridge) : Prop :=
  forall conn, is_Some (tcp_identities b !! conn) -> conn ∈ tcp_clients b.

(** A frame a native connection may send as a command that is not a
    [hello]: its payload is not empty, fits the length prefix and parses
    to the object [o], whose [cmd] can be shown on [sys.stdout]. *)
Definition command_frame (payload : list byte) (o : pydict) : Prop :=
  payload <> [] /\
  Z.of_nat (length payload) < 2 ^ 32 /\
  utf8_decode payload ≫= json_loads = Some (PDict o) /\
  py_get o (lit "cmd") PNone <> PStr (lit "hello") /\
  shows (py_get o (lit "cmd") PNone).

(** What line 78 prints of the identity of [conn] ([None] twice when it
    has none) can be shown on [sys.stdout]. *)
Definition identity_shown (b : bridge) (conn : nat) : Prop :=
  shows (from_option ident_id PNone (tcp_identities b !! conn)) /\
  shows (from_option ident_name PNone (tcp_identities b !! conn)).

(** What a native handler may change between [b0] and [b]: the identity
    and the socket of its own connection, where it only adds to what was
    sent, and the list of scheduled broadcasts, where it only adds at the
    end. *)
Definition native_effects (conn : nat) (b0 b : bridge) : Prop :=
  tcp_clients b = tcp_clients b0 /\
  ws_clients b = ws_clients b0 /\
  ws_identities b = ws_identities b0 /\
  web_socks b = web_socks b0 /\
  (forall c, c <> conn ->
     tcp_identities b !! c = tcp_identities b0 !! c /\
     tcp_socks b !! c = tcp_socks b0 !! c) /\
  (exists q, loop_tasks b = loop_tasks b0 ++ q) /\
  (exists out, sent (tcp_sock_of b conn) = sent (tcp_sock_of b0 conn) ++ out).

(** What a browser handler may change between [b0] and [b]: the identity
    and the socket of its own connection, where it only adds to the
    messages sent, and the native sockets, where it only adds to what was
    sent. *)
Definition browser_effects (ws : nat) (b0 b : bridge) : Prop :=
  tcp_clients b = tcp_clients b0 /\
  tcp_identities b = tcp_identities b0 /\
  ws_clients b = ws_clients b0 /\
  loop_tasks b = loop_tasks b0 /\
  (forall x, x <> ws ->
     ws_identities b !! x = ws_identities b0 !! x /\
     web_socks b !! x = web_socks b0 !! x) /\
  (forall conn, exists out,
     sent (tcp_sock_of b conn) = sent (tcp_sock_of b0 conn) ++ out).

(** The messages of a browser that parse as JSON. *)
Definition parses (msg : pystr) : bool :=
  match json_loads msg with
  | Some _ => true
  | None => false
  end.



End HandlerTerms.

(** ** Controllers and command names, continued *)

Section HelperTerms.
Import Py Core TcpHelpers.
Context {rt : PyRuntime}.





End HelperTerms.

(** ** The browser handler of ws_hub.py *)

Section HubTerms.
Import Py Websockets WsHub.
Context {rt : PyRuntime} {T : Type}.





(** The text of an acknowledgement of [hello]. *)
Definition is_hello_ack (data : pystr) : Prop :=
  exists client_id client_name,
    data = json_dumps_compact (ack client_id client_name).

(** What the loop of [ws_handler] may have changed in the state of
    [ws_helpers.py] between [w0] and [w], for the connection [ws]. *)
Definition hub_effects (ws : nat) (w0 w : world T) : Prop :=
  WsHelpers.ws_clients (hub w) = WsHelpers.ws_clients (hub w0)
  /\ (forall ws', ws' <> ws ->
        ws_identities w !! ws' = ws_identities w0 !! ws'
        /\ WsHelpers.web_socks (hub w) !! ws'
           = WsHelpers.web_socks (hub w0) !! ws')
  /\ exists acks,
       outbox (web_sock_of (WsHelpers.web_socks (hub w)) ws)
       = outbox (web_sock_of (WsHelpers.web_socks (hub w0)) ws) ++ acks
       /\ Forall is_hello_ack acks.

End HubTerms.

(** ** More concrete inputs *)

Section MoreInputs.
Import Py Core Websockets TcpHelpers App RefRuntime.

Definition hello_text : string :=
  "{'cmd': 'hello', 'id': 'p3', 'name': 'PluginC'}".

(** Two commands of a native connection, one frame per segment. *)
Definition two_commands : list (list byte * pydict) :=
  [ (json_bytes morphs_query_text, morphs_query);
    (json_bytes set_controller_text, set_controller_envelope) ].

Definition two_commands_stream : stream :=
  [ framed (json_bytes morphs_query_text);
    framed (json_bytes set_controller_text) ].

(** The demonstration bridge with a socket for connection 3 that can no
    longer be written. *)
Definition broken_bridge : bridge :=
  set_tcp_socks (insert 3%nat (TcpSock [] false false)) demo_bridge.

(** Connections 1 and 2 both registered as [(p1, PluginA)]; the socket of
    connection 1 can no longer be written, that of connection 2 can. *)
Definition twin_bridge : bridge :=
  set_tcp_socks (insert 1%nat (TcpSock [] false false))
    (set_tcp_identities (insert 2%nat plugin_a) demo_bridge).






(** An envelope with both payload keys. *)
Definition both_keys_envelope : pydict :=
  [ (lit "morphs", PList []); (lit "controllers", PList []) ].

End MoreInputs.

(** * Properties *)

(** ** Frame codec *)

Section CodecClaims.
Import Core.

(** C1. Framing round trip: what [send_frame] writes for a payload of
    fewer than 2^32 bytes is the four-byte little-endian length followed
    by the payload, and [recv_frame], reading from a transport that
    delivers exactly those bytes, in whatever segments, returns the
    payload and leaves nothing unread. *)
Theorem frame_roundtrip (p : list byte) (s : tcp_sock) :
  Z.of_nat (length p) < 2 ^ 32 ->
  writable s = true -> closed s = false ->
  exists s' wire,
    send_frame s p = Ret s' /\
    sent s' = sent s ++ wire /\
    wire = le_split 4 (Z.of_nat (length p)) ++ p /\
    forall rx : stream, stream_bytes rx = wire ->
      exists rx', recv_frame rx = Ret (p, rx') /\ stream_bytes rx' = [].
Proof.
  intros Hlen Hw Hc.
  exists (TcpSock (sent s ++ le_split 4 (Z.of_nat (length p)) ++ p) (writable s) (closed s)).
  exists (le_split 4 (Z.of_nat (length p)) ++ p).
  split.
  { unfold send_frame, struct_pack_I.
    replace (0 <=? Z.of_nat (length p)) with true by (symmetry; apply Z.leb_le; lia).
    replace (Z.of_nat (length p) <? 2 ^ 32) with true by (symmetry; apply Z.ltb_lt; lia).
    simpl. unfold sendall. rewrite Hw, Hc. reflexivity. }
  split; [reflexivity|]. split; [reflexivity|].
  intros rx Hrx.
  pose proof (recv_frame_spec rx) as H. simpl in H. rewrite Hrx in H.
  assert (Hh : take 4 (le_split 4 (Z.of_nat (length p)) ++ p)
               = le_split 4 (Z.of_nat (length p))).
  { rewrite take_app_length'; [reflexivity|symmetry; apply length_le_split]. }
  assert (Hd : drop 4 (le_split 4 (Z.of_nat (length p)) ++ p) = p).
  { rewrite drop_app_length'; [reflexivity|symmetry; apply length_le_split]. }
  assert (Hn : announced_length (le_split 4 (Z.of_nat (length p)) ++ p) = length p).
  { unfold announced_length. rewrite Hh, le_combine_split.
    rewrite Z.mod_small by (change (2 ^ (Z.of_nat 4 * 8)) with (2 ^ 32); lia).
    apply Nat2Z.id. }
  rewrite Hn, Hd in H.
  rewrite decide_True in H.
  - destruct H as (rx' & Hr & Hs). exists rx'. split.
    + rewrite Hr. rewrite take_ge by lia. reflexivity.
    + rewrite Hs. apply drop_ge. lia.
  - split; [|lia]. rewrite length_app, length_le_split. lia.
Qed.

(** C2. A transport that closes before the four-byte prefix and the [n]
    bytes it announces have all arrived makes [recv_frame] raise
    [ConnectionError]; and whenever [recv_frame] does return, the payload
    has exactly the announced length. *)
Theorem recv_frame_closed_early (rx : stream) :
  let bs := stream_bytes rx in
  ((length bs < 4 \/ length bs < 4 + announced_length bs)%nat ->
     recv_frame rx = Raise ConnectionError) /\
  (forall p rx', recv_frame rx = Ret (p, rx') ->
     length p = announced_length bs /\ p = take (announced_length bs) (drop 4 bs)).
Proof.
  intros bs. pose proof (recv_frame_spec rx) as H. simpl in H. fold bs in H.
  destruct (decide (4 <= length bs /\ announced_length bs <= length (drop 4 bs))%nat)
    as [[H4 Hn]|Hno].
  - destruct H as (rx1 & Hr & Hs). split.
    + intros Hshort. rewrite length_drop in Hn. lia.
    + intros p rx' Hp. rewrite Hr in Hp. inversion Hp; subst.
      split; [|reflexivity]. rewrite length_take. lia.
  - split.
    + intros _. exact H.
    + intros p rx' Hp. rewrite H in Hp. discriminate.
Qed.

End CodecClaims.

(** ** Payload extraction and command names *)

Section CommandClaims.
Import Py TcpHelpers.
Context {rt : PyRuntime}.

Lemma is_none_false (v : pyval) : v <> PNone -> is_none v = false.
Proof. destruct v; simpl; congruence. Qed.

Lemma py_in_lookup (k : pystr) (d : pydict) :
  py_in k d = true <-> exists v, dict_lookup k d = Some v.
Proof.
  unfold py_in. rewrite bool_decide_eq_true. reflexivity.
Qed.

Lemma py_in_Some (k : pystr) (d : pydict) (v : pyval) :
  dict_lookup k d = Some v -> py_in k d = true.
Proof. intros E. apply py_in_lookup. eauto. Qed.

Lemma py_in_None (k : pystr) (d : pydict) :
  dict_lookup k d = None -> py_in k d = false.
Proof.
  intros E. unfold py_in. apply bool_decide_eq_false. rewrite E.
  intros [v Hv]. discriminate.
Qed.

Lemma carries_test (obj : pydict) (k : pystr) (v : pyval) :
  carries obj k v ->
  py_in k obj && negb (is_none (py_get obj k PNone)) = true
  /\ py_get obj k PNone = v.
Proof.
  intros [E Hv]. unfold py_get. rewrite (py_in_Some _ _ _ E), E. simpl.
  rewrite is_none_false by assumption. auto.
Qed.

Lemma lacks_test (obj : pydict) (k : pystr) :
  lacks obj k ->
  py_in k obj && negb (is_none (py_get obj k PNone)) = false.
Proof.
  intros [E|E]; unfold py_get.
  - rewrite (py_in_None _ _ E). reflexivity.
  - rewrite (py_in_Some _ _ _ E), E. reflexivity.
Qed.

Lemma py_eq_str (v : pyval) (s : pystr) :
  py_eq v (PStr s) = true <-> v = PStr s.
Proof.
  destruct v; simpl; try (split; [discriminate|congruence]).
  rewrite bool_decide_eq_true. split; congruence.
Qed.

Lemma py_eq_none (v : pyval) : py_eq v PNone = true <-> v = PNone.
Proof. destruct v; simpl; split; congruence. Qed.

Lemma py_eq_cmd (cmd : option pystr) (s : pystr) :
  py_eq (cmd_value cmd) (PStr s) = bool_decide (cmd = Some s).
Proof.
  destruct cmd as [c|]; simpl.
  - apply bool_decide_ext. split; congruence.
  - reflexivity.
Qed.

(** What the first test of [normalize_cmd] computes. *)
Lemma result_test (cmd : option pystr) :
  (if py_truthy (cmd_value cmd)
   then py_endswith (cmd_value cmd) (lit "_result")
   else Ret false)
  = Ret (match cmd with
         | Some s => str_endswith s (lit "_result")
         | None => false
         end).
Proof.
  destruct cmd as [s|]; simpl; [|reflexivity].
  destruct s as [|c s]; reflexivity.
Qed.

(** C7. Payload precedence and command-name rewriting.
    The payload of an envelope is its [data] when present and not null,
    else its [morphs] when present and not null, else its [controllers]
    when present and not null, else none.
    For a command name that does not end in [_result] (or is absent),
    [normalize_cmd] answers [read_all_morphs] when a payload was extracted,
    the envelope has a [morphs] key and the name is not [read_all_morphs];
    failing that, [read_all_controllers] under the same condition for
    [controllers]; and otherwise the name itself, the empty string when it
    is absent. *)
Theorem payload_precedence_and_cmd_rewrite
    (obj : pydict) (cmd : option pystr) (payload : pyval) :
  (* payload extraction *)
  (forall v, carries obj (lit "data") v -> extract_payload obj = v) /\
  (forall v, lacks obj (lit "data") -> carries obj (lit "morphs") v ->
             extract_payload obj = v) /\
  (forall v, lacks obj (lit "data") -> lacks obj (lit "morphs") ->
             carries obj (lit "controllers") v -> extract_payload obj = v) /\
  (lacks obj (lit "data") -> lacks obj (lit "morphs") ->
   lacks obj (lit "controllers") -> extract_payload obj = PNone) /\
  (* command name *)
  (~ is_result_name cmd ->
   let morphs_rule :=
     payload <> PNone /\ py_in (lit "morphs") obj = true /\
     cmd <> Some (lit "read_all_morphs") /\
     cmd <> Some (lit "read_all_morphs_result") in
   let controllers_rule :=
     payload <> PNone /\ py_in (lit "controllers") obj = true /\
     cmd <> Some (lit "read_all_controllers") /\
     cmd <> Some (lit "read_all_controllers_result") in
   (morphs_rule ->
      normalize_cmd (cmd_value cmd) obj payload
      = Ret (PStr (lit "read_all_morphs"))) /\
   (~ morphs_rule -> controllers_rule ->
      normalize_cmd (cmd_value cmd) obj payload
      = Ret (PStr (lit "read_all_controllers"))) /\
   (~ morphs_rule -> ~ controllers_rule ->
      normalize_cmd (cmd_value cmd) obj payload
      = Ret (PStr (default (lit "") cmd)))).
Proof.
  split; [|split; [|split; [|split]]].
  - intros v Hd. unfold extract_payload.
    destruct (carries_test _ _ _ Hd) as [-> ->]. reflexivity.
  - intros v Hd Hm. unfold extract_payload.
    rewrite (lacks_test _ _ Hd).
    destruct (carries_test _ _ _ Hm) as [-> ->]. reflexivity.
  - intros v Hd Hm Hc. unfold extract_payload.
    rewrite (lacks_test _ _ Hd), (lacks_test _ _ Hm).
    destruct (carries_test _ _ _ Hc) as [-> ->]. reflexivity.
  - intros Hd Hm Hc. unfold extract_payload.
    rewrite (lacks_test _ _ Hd), (lacks_test _ _ Hm), (lacks_test _ _ Hc).
    reflexivity.
  - intros Hnr morphs_rule controllers_rule.
    assert (Hr : match cmd with
                 | Some s => str_endswith s (lit "_result")
                 | None => false
                 end = false).
    { destruct cmd as [s|]; [|reflexivity].
      apply not_true_is_false. exact Hnr. }
    assert (Hunfold : normalize_cmd (cmd_value cmd) obj payload =
      if negb (is_none payload) && py_in (lit "morphs") obj
         && negb (bool_decide (cmd = Some (lit "read_all_morphs"))
                  || bool_decide (cmd = Some (lit "read_all_morphs_result")))
      then Ret (PStr (lit "read_all_morphs"))
      else if negb (is_none payload) && py_in (lit "controllers") obj
              && negb (bool_decide (cmd = Some (lit "read_all_controllers"))
                       || bool_decide (cmd = Some (lit "read_all_controllers_result")))
      then Ret (PStr (lit "read_all_controllers"))
      else Ret (PStr (default (lit "") cmd))).
    { unfold normalize_cmd. rewrite result_test, Hr. simpl mbind. cbv beta iota.
      rewrite !py_eq_cmd.
      replace (py_or (cmd_value cmd) (PStr (lit "")))
        with (PStr (default (lit "") cmd)); [reflexivity|].
      unfold py_or. destruct cmd as [[|c s]|]; reflexivity. }
    assert (Hm : negb (is_none payload) && py_in (lit "morphs") obj
                 && negb (bool_decide (cmd = Some (lit "read_all_morphs"))
                          || bool_decide (cmd = Some (lit "read_all_morphs_result")))
                 = true <-> morphs_rule).
    { unfold morphs_rule.
      rewrite !andb_true_iff, !negb_true_iff, orb_false_iff.
      rewrite !bool_decide_eq_false. split.
      - intros [[E1 E2] [E3 E4]]. repeat split; auto.
        intros ->. discriminate.
      - intros (E1 & E2 & E3 & E4). repeat split; auto using is_none_false. }
    assert (Hc : negb (is_none payload) && py_in (lit "controllers") obj
                 && negb (bool_decide (cmd = Some (lit "read_all_controllers"))
                          || bool_decide (cmd = Some (lit "read_all_controllers_result")))
                 = true <-> controllers_rule).
    { unfold controllers_rule.
      rewrite !andb_true_iff, !negb_true_iff, orb_false_iff.
      rewrite !bool_decide_eq_false. split.
      - intros [[E1 E2] [E3 E4]]. repeat split; auto.
        intros ->. discriminate.
      - intros (E1 & E2 & E3 & E4). repeat split; auto using is_none_false. }
    rewrite Hunfold. split; [|split].
    + intros Hrule. apply Hm in Hrule. rewrite Hrule. reflexivity.
    + intros Hnm Hrule. apply Hc in Hrule.
      rewrite (not_true_is_false _ (fun E => Hnm (proj1 Hm E))).
      rewrite Hrule. reflexivity.
    + intros Hnm Hnc.
      rewrite (not_true_is_false _ (fun E => Hnm (proj1 Hm E))).
      rewrite (not_true_is_false _ (fun E => Hnc (proj1 Hc E))).
      reflexivity.
Qed.

(** C8. A command name that ends in [_result] is returned as it is,
    whatever the envelope and the payload are. *)
Theorem normalize_cmd_keeps_results
    (cmd : pystr) (obj : pydict) (payload : pyval) :
  str_endswith cmd (lit "_result") = true ->
  normalize_cmd (PStr cmd) obj payload = Ret (PStr cmd).
Proof.
  intros He. unfold normalize_cmd.
  assert (Ht : py_truthy (PStr cmd) = true).
  { destruct cmd as [|c s]; [|reflexivity]. vm_compute in He. discriminate. }
  rewrite Ht. simpl. rewrite He. reflexivity.
Qed.

End CommandClaims.

(** ** Controller normalisation *)

Section ControllerClaims.
Import Py Core TcpHelpers.
Context {rt : PyRuntime}.












End ControllerClaims.

(** ** Broadcast to the browsers *)

Section BroadcastClaims.
Import Py Websockets.
Context {rt : PyRuntime}.

(** *** [ws_helpers.broadcast] *)

Lemma ws_helpers_loop_spec (data : pystr) (l : list nat) :
  NoDup l ->
  forall h : WsHelpers.hub,
  let h' := WsHelpers.broadcast_loop data l h in
  let sock := web_sock_of (WsHelpers.web_socks h) in
  (forall ws, ws ∈ WsHelpers.ws_clients h' <->
              ws ∈ WsHelpers.ws_clients h /\ (ws ∈ l -> ws_open (sock ws) = true)) /\
  (forall ws, web_sock_of (WsHelpers.web_socks h') ws =
              if bool_decide (ws ∈ l) && ws_open (sock ws)
              then WebSock (outbox (sock ws) ++ [data]) true
              else sock ws).
Proof.
  induction 1 as [|x l Hx Hl IH]; intros h; simpl.
  - split; intros ws.
    + rewrite elem_of_nil. tauto.
    + reflexivity.
  - set (h1 := match ws_send _ data with Ret _ => _ | Raise _ => _ end).
    destruct (IH h1) as [IHc IHs]. clear IH.
    assert (Hother : forall ws, ws <> x ->
              web_sock_of (WsHelpers.web_socks h1) ws
              = web_sock_of (WsHelpers.web_socks h) ws).
    { intros ws Hne. unfold h1, ws_send.
      destruct (ws_open _); simpl; [|reflexivity].
      unfold web_sock_of. rewrite lookup_insert_ne by auto. reflexivity. }
    split; intros ws.
    + rewrite IHc. rewrite elem_of_cons.
      destruct (decide (ws = x)) as [->|Hne].
      * unfold h1, ws_send.
        destruct (ws_open (web_sock_of (WsHelpers.web_socks h) x)) eqn:Eo;
          simpl.
        -- split; [intros [Hin _]; split; auto|intros [Hin _]; split; [auto|tauto]].
        -- rewrite elem_of_difference, elem_of_singleton. split.
           ++ intros [[_ Hn] _]. congruence.
           ++ intros [_ Hn]. discriminate Hn. auto.
      * rewrite (Hother ws Hne).
        assert (Hcl : ws ∈ WsHelpers.ws_clients h1 <-> ws ∈ WsHelpers.ws_clients h).
        { unfold h1. destruct (ws_send _ data); simpl; [tauto|].
          rewrite elem_of_difference, elem_of_singleton. tauto. }
        rewrite Hcl. tauto.
    + rewrite IHs.
      destruct (decide (ws = x)) as [->|Hne].
      * rewrite (bool_decide_eq_false_2 _ Hx).
        rewrite (bool_decide_eq_true_2 (x ∈ x :: l)) by apply list_elem_of_here.
        simpl. unfold h1, ws_send.
        destruct (ws_open (web_sock_of (WsHelpers.web_socks h) x)) eqn:Eo;
          simpl; [|reflexivity].
        unfold web_sock_of at 1. rewrite lookup_insert_eq. simpl.
        rewrite ?Eo. reflexivity.
      * rewrite (Hother ws Hne).
        assert (Hb : bool_decide (ws ∈ x :: l) = bool_decide (ws ∈ l)).
        { apply bool_decide_ext. rewrite elem_of_cons. tauto. }
        rewrite Hb. reflexivity.
Qed.

(** *** [app.broadcast]: the same loop on the state of [app.py] *)

Lemma app_loop_as_hub (data : pystr) (l : list nat) (b : App.bridge) :
  App.broadcast_loop data l b
  = with_hub (WsHelpers.broadcast_loop data l (hub_of b)) b.
Proof.
  revert b. induction l as [|x l IH]; intros b; simpl.
  - destruct b; reflexivity.
  - rewrite IH. unfold App.ws_send_to, hub_of. simpl.
    destruct (ws_send _ data); reflexivity.
Qed.

Lemma hub_broadcast_spec (data : pystr) (g : WsHelpers.hub) :
  let g' := WsHelpers.broadcast_loop data (elements (WsHelpers.ws_clients g)) g in
  let sock := web_sock_of (WsHelpers.web_socks g) in
  let sock' := web_sock_of (WsHelpers.web_socks g') in
  (forall ws, ws ∈ WsHelpers.ws_clients g' <->
              ws ∈ WsHelpers.ws_clients g /\ ws_open (sock ws) = true) /\
  (forall ws, ws ∈ WsHelpers.ws_clients g -> ws_open (sock ws) = true ->
              outbox (sock' ws) = outbox (sock ws) ++ [data]) /\
  (forall ws, ws ∉ WsHelpers.ws_clients g -> sock' ws = sock ws).
Proof.
  destruct (ws_helpers_loop_spec data (elements (WsHelpers.ws_clients g))
              (NoDup_elements _) g) as [Hc Hs].
  cbv zeta. split; [|split]; intros ws.
  - rewrite Hc, elem_of_elements. tauto.
  - intros Hin Ho. rewrite Hs.
    rewrite bool_decide_eq_true_2 by (apply elem_of_elements; exact Hin).
    rewrite Ho. reflexivity.
  - intros Hin. rewrite Hs.
    rewrite bool_decide_eq_false_2 by (rewrite elem_of_elements; exact Hin).
    reflexivity.
Qed.

Lemma app_broadcast_spec (message : pyval) (b : App.bridge) :
  let b' := App.broadcast message b in
  let sock := web_sock_of (App.web_socks b) in
  let sock' := web_sock_of (App.web_socks b') in
  (forall ws, ws ∈ App.ws_clients b' <->
              ws ∈ App.ws_clients b /\ ws_open (sock ws) = true) /\
  (forall ws, ws ∈ App.ws_clients b -> ws_open (sock ws) = true ->
              outbox (sock' ws)
              = outbox (sock ws) ++ [json_dumps message]) /\
  (forall ws, ws ∉ App.ws_clients b -> sock' ws = sock ws).
Proof.
  unfold App.broadcast. rewrite app_loop_as_hub.
  exact (hub_broadcast_spec (json_dumps message) (hub_of b)).
Qed.


End BroadcastClaims.

(** ** Routing between browsers and native connections *)

Section RoutingClaims.
Import Py Core Websockets App.
Context {rt : PyRuntime}.

Lemma py_eq_text (v t : pyval) :
  text_or_absent t -> (py_eq v t = true <-> v = t).
Proof.
  intros [->|[s ->]]; [apply py_eq_none|apply py_eq_str].
Qed.

Lemma is_target_iff (b : bridge) (tid tname : pyval) (conn : nat) :
  text_or_absent tid -> text_or_absent tname ->
  (is_target b tid tname conn = true <-> registered_as b conn tid tname).
Proof.
  intros Hi Hn. unfold is_target, registered_as.
  destruct (tcp_identities b !! conn) as [ident|].
  - rewrite andb_true_iff, (py_eq_text _ _ Hi), (py_eq_text _ _ Hn). split.
    + intros [? ?]. eauto.
    + intros (i & Hs & ? & ?). inversion Hs; subst. auto.
  - split; [discriminate|]. intros (i & Hs & _). discriminate.
Qed.

Lemma after_send_framed (s : tcp_sock) (wire : list byte) :
  writable s = true -> closed s = false -> Z.of_nat (length wire) < 2 ^ 32 ->
  after_send s wire
  = TcpSock (sent s ++ le_split 4 (Z.of_nat (length wire)) ++ wire) true false.
Proof.
  intros Hw Hc Hl. unfold after_send, send_frame, struct_pack_I.
  replace (0 <=? Z.of_nat (length wire)) with true by (symmetry; apply Z.leb_le; lia).
  replace (Z.of_nat (length wire) <? 2 ^ 32) with true by (symmetry; apply Z.ltb_lt; lia).
  simpl. unfold sendall. rewrite Hw, Hc. reflexivity.
Qed.

Lemma forward_loop_spec (tid tname : pyval) (wire : list byte) (l : list nat) :
  NoDup l ->
  forall b : bridge,
  let b' := forward_loop tid tname wire l b in
  (forall conn, tcp_sock_of b' conn =
     if bool_decide (conn ∈ l) && is_target b tid tname conn
     then after_send (tcp_sock_of b conn) wire
     else tcp_sock_of b conn) /\
  tcp_clients b' = tcp_clients b /\
  tcp_identities b' = tcp_identities b /\
  ws_clients b' = ws_clients b /\
  ws_identities b' = ws_identities b /\
  web_socks b' = web_socks b /\
  loop_tasks b' = loop_tasks b.
Proof.
  induction 1 as [|x l Hx Hl IH]; intros b; simpl.
  - repeat split; reflexivity.
  - set (b1 := if is_target b tid tname x then _ else b).
    assert (Hb1 : (forall conn, tcp_sock_of b1 conn =
                     if bool_decide (conn = x) && is_target b tid tname x
                     then after_send (tcp_sock_of b x) wire
                     else tcp_sock_of b conn) /\
                  tcp_clients b1 = tcp_clients b /\
                  tcp_identities b1 = tcp_identities b /\
                  ws_clients b1 = ws_clients b /\
                  ws_identities b1 = ws_identities b /\
                  web_socks b1 = web_socks b /\
                  loop_tasks b1 = loop_tasks b).
    { unfold b1, after_send, send_frame_to.
      destruct (is_target b tid tname x).
      - destruct (send_frame (tcp_sock_of b x) wire) as [s'|e]; simpl.
        + repeat split; try reflexivity. intros conn.
          unfold tcp_sock_of at 1. simpl.
          destruct (decide (conn = x)) as [->|Hne].
          * rewrite lookup_insert_eq, bool_decide_eq_true_2 by reflexivity.
            reflexivity.
          * rewrite lookup_insert_ne, bool_decide_eq_false_2 by auto.
            reflexivity.
        + repeat split; try reflexivity. intros conn.
          destruct (bool_decide (conn = x)) eqn:E; [|reflexivity].
          apply bool_decide_eq_true in E. subst. reflexivity.
      - repeat split; try reflexivity. intros conn.
        rewrite andb_false_r. reflexivity. }
    destruct Hb1 as (Hs1 & Hc1 & Hi1 & Hw1 & Hwi1 & Hws1 & Hl1).
    destruct (IH b1) as (Hs & Hc & Hi & Hw & Hwi & Hws & Hlt). clear IH.
    assert (Ht : forall conn, is_target b1 tid tname conn = is_target b tid tname conn).
    { intros conn. unfold is_target. rewrite Hi1. reflexivity. }
    repeat split; try congruence.
    intros conn. rewrite Hs, Ht, Hs1.
    destruct (decide (conn = x)) as [->|Hne].
    + rewrite (bool_decide_eq_false_2 _ Hx).
      rewrite (bool_decide_eq_true_2 (x ∈ x :: l)) by apply list_elem_of_here.
      rewrite bool_decide_eq_true_2 by reflexivity. reflexivity.
    + rewrite (bool_decide_eq_false_2 (conn = x)) by exact Hne.
      assert (Hb : bool_decide (conn ∈ x :: l) = bool_decide (conn ∈ l)).
      { apply bool_decide_ext. rewrite elem_of_cons. tauto. }
      rewrite Hb. simpl. reflexivity.
Qed.

(** What [ws_handler] does with an envelope that is not a [hello]. *)
Lemma ws_dispatch_forward (ws : nat) (o : pydict) (b : bridge) :
  py_get o (lit "cmd") PNone <> PStr (lit "hello") ->
  let target_id := py_get o (lit "id") PNone in
  let target_name := py_get o (lit "name") PNone in
  let wire := utf8_encode (json_dumps (PDict o)) in
  exists b',
    ws_dispatch ws (PDict o) b = Continue b' /\
    (forall conn, tcp_sock_of b' conn =
       if bool_decide (conn ∈ tcp_clients b)
          && is_target b target_id target_name conn
       then after_send (tcp_sock_of b conn) wire
       else tcp_sock_of b conn) /\
    tcp_clients b' = tcp_clients b /\
    tcp_identities b' = tcp_identities b /\
    ws_clients b' = ws_clients b /\
    ws_identities b' = ws_identities b /\
    web_socks b' = web_socks b /\
    loop_tasks b' = loop_tasks b.
Proof.
  intros Hcmd. cbv zeta. unfold ws_dispatch.
  assert (E : py_eq (py_get o (lit "cmd") PNone) (PStr (lit "hello")) = false).
  { apply not_true_is_false. rewrite py_eq_str. exact Hcmd. }
  rewrite E. eexists. split; [reflexivity|].
  destruct (forward_loop_spec (py_get o (lit "id") PNone)
              (py_get o (lit "name") PNone)
              (utf8_encode (json_dumps (PDict o)))
              (elements (tcp_clients b)) (NoDup_elements _) b)
    as (Hs & Hrest).
  split; [|exact Hrest].
  intros conn. rewrite Hs.
  assert (Hb : bool_decide (conn ∈ elements (tcp_clients b))
               = bool_decide (conn ∈ tcp_clients b)).
  { apply bool_decide_ext. apply elem_of_elements. }
  rewrite Hb. reflexivity.
Qed.



(** For an envelope addressed by strings (or with [id] or [name] absent)
    comparing equal is being the same: the connections written to are
    those registered under exactly the [(id, name)] of the envelope. *)
Lemma forward_targets_matching_identities
    (ws : nat) (o : pydict) (b : bridge) :
  py_get o (lit "cmd") PNone <> PStr (lit "hello") ->
  let target_id := py_get o (lit "id") PNone in
  let target_name := py_get o (lit "name") PNone in
  let wire := utf8_encode (json_dumps (PDict o)) in
  text_or_absent target_id -> text_or_absent target_name ->
  exists b',
    ws_dispatch ws (PDict o) b = Continue b' /\
    (forall conn,
       conn ∈ tcp_clients b -> registered_as b conn target_id target_name ->
       tcp_sock_of b' conn = after_send (tcp_sock_of b conn) wire /\
       (writable (tcp_sock_of b conn) = true ->
        closed (tcp_sock_of b conn) = false ->
        Z.of_nat (length wire) < 2 ^ 32 ->
        sent (tcp_sock_of b' conn)
        = sent (tcp_sock_of b conn)
          ++ le_split 4 (Z.of_nat (length wire)) ++ wire)) /\
    (forall conn,
       ~ (conn ∈ tcp_clients b /\ registered_as b conn target_id target_name) ->
       tcp_sock_of b' conn = tcp_sock_of b conn) /\
    (forall conn,
       tcp_identities b !! conn = None ->
       tcp_sock_of b' conn = tcp_sock_of b conn).
Proof.
  intros Hcmd target_id target_name wire Hid Hname.
  destruct (ws_dispatch_forward ws o b Hcmd) as (b' & Hd & Hs & _).
  fold target_id target_name wire in Hs.
  exists b'. split; [exact Hd|].
  assert (Hnot : forall conn,
            ~ (conn ∈ tcp_clients b /\ registered_as b conn target_id target_name) ->
            tcp_sock_of b' conn = tcp_sock_of b conn).
  { intros conn Hn. rewrite Hs.
    destruct (bool_decide (conn ∈ tcp_clients b)) eqn:E1; [|reflexivity].
    destruct (is_target b target_id target_name conn) eqn:E2; [|reflexivity].
    exfalso. apply Hn. apply bool_decide_eq_true in E1.
    apply (is_target_iff b _ _ conn Hid Hname) in E2. auto. }
  split; [|split].
  - intros conn Hin Hreg.
    assert (Hc : tcp_sock_of b' conn = after_send (tcp_sock_of b conn) wire).
    { rewrite Hs, (bool_decide_eq_true_2 _ Hin).
      apply (is_target_iff b _ _ conn Hid Hname) in Hreg. rewrite Hreg.
      reflexivity. }
    split; [exact Hc|]. intros Hw Hc' Hl.
    rewrite Hc, after_send_framed by assumption. reflexivity.
  - exact Hnot.
  - intros conn Hnone. apply Hnot. intros [_ (i & Hi & _)]. congruence.
Qed.

(** C6, as the code has it.  When a browser sends a [set_controller]
    envelope addressed to [(id, name)] and exactly one live native
    connection is registered under that identity, that connection is sent
    one frame whose payload is the serialised envelope as the browser sent
    it, its [controllers] untouched; the socket of every other connection
    is left as it was. *)
Theorem set_controller_forwarded_verbatim
    (ws conn1 : nat) (o : pydict) (id name : pystr) (b : bridge) :
  py_get o (lit "cmd") PNone = PStr (lit "set_controller") ->
  py_get o (lit "id") PNone = PStr id ->
  py_get o (lit "name") PNone = PStr name ->
  conn1 ∈ tcp_clients b ->
  registered_as b conn1 (PStr id) (PStr name) ->
  (forall conn, conn ∈ tcp_clients b ->
                registered_as b conn (PStr id) (PStr name) -> conn = conn1) ->
  let wire := utf8_encode (json_dumps (PDict o)) in
  writable (tcp_sock_of b conn1) = true ->
  closed (tcp_sock_of b conn1) = false ->
  Z.of_nat (length wire) < 2 ^ 32 ->
  exists b',
    ws_dispatch ws (PDict o) b = Continue b' /\
    sent (tcp_sock_of b' conn1)
    = sent (tcp_sock_of b conn1) ++ le_split 4 (Z.of_nat (length wire)) ++ wire /\
    (forall conn, conn <> conn1 -> tcp_sock_of b' conn = tcp_sock_of b conn).
Proof.
  intros Hcmd Hid Hname Hin Hreg Huniq wire Hw Hc Hl.
  assert (Hnh : py_get o (lit "cmd") PNone <> PStr (lit "hello")).
  { rewrite Hcmd. vm_compute. discriminate. }
  destruct (ws_dispatch_forward ws o b Hnh) as (b' & Hd & Hs & _).
  rewrite Hid, Hname in Hs. fold wire in Hs.
  assert (Hiff : forall conn, is_target b (PStr id) (PStr name) conn = true
                              <-> registered_as b conn (PStr id) (PStr name)).
  { intros conn. apply is_target_iff; right; eauto. }
  exists b'. split; [exact Hd|]. split.
  - rewrite Hs, (bool_decide_eq_true_2 _ Hin).
    apply Hiff in Hreg. rewrite Hreg. simpl.
    rewrite after_send_framed by assumption. reflexivity.
  - intros conn Hne. rewrite Hs.
    destruct (bool_decide (conn ∈ tcp_clients b)) eqn:E1; [|reflexivity].
    destruct (is_target b (PStr id) (PStr name) conn) eqn:E2; [|reflexivity].
    exfalso. apply Hne. apply Huniq.
    + apply bool_decide_eq_true in E1. exact E1.
    + apply Hiff. exact E2.
Qed.

(** C4: the defect.  A [hello] whose [id] or [name] has a character that
    [sys.stdout] cannot encode is not acknowledged: the [print] of line
    65 raises [UnicodeEncodeError] after the identity was stored and
    before [send_frame]; nothing is written to the connection, no
    broadcast is scheduled, and the exception leaves the loop. *)
Theorem hello_unprintable_not_acknowledged
    (conn : nat) (o : pydict) (b : bridge) :
  py_get o (lit "cmd") PNone = PStr (lit "hello") ->
  let client_id := py_get o (lit "id") (PStr (lit "")) in
  let client_name := py_get o (lit "name") (PStr (lit "")) in
  printable (py_str client_id) && printable (py_str client_name) = false ->
  exists b',
    tcp_dispatch conn (PDict o) b = Propagate UnicodeEncodeError b' /\
    tcp_identities b' !! conn = Some (Identity client_id client_name) /\
    tcp_socks b' = tcp_socks b /\
    loop_tasks b' = loop_tasks b /\
    web_socks b' = web_socks b.
Proof.
  intros Hcmd client_id client_name Hp.
  unfold tcp_dispatch. rewrite Hcmd.
  replace (py_eq (PStr (lit "hello")) (PStr (lit "hello"))) with true
    by (vm_compute; reflexivity).
  fold client_id client_name. unfold py_print. cbn [forallb].
  rewrite andb_true_r, Hp.
  eexists. split; [reflexivity|].
  split; [apply lookup_insert_eq|]. repeat split.
Qed.

(** The [hello] of a native connection whose identity can be printed,
    when the acknowledgement can be written to its socket: the identity
    [(id, name)] is registered for the connection, the framed
    acknowledgement [{cmd: acknowledge, ack: hello, id, name}] is written
    to that same connection, and a broadcast of the same acknowledgement
    is handed to the event loop; running that broadcast sends the
    serialised acknowledgement to every connected browser that can be
    written to. *)
Lemma tcp_hello_acknowledged (conn : nat) (o : pydict) (b : bridge) :
  py_get o (lit "cmd") PNone = PStr (lit "hello") ->
  let client_id := py_get o (lit "id") (PStr (lit "")) in
  let client_name := py_get o (lit "name") (PStr (lit "")) in
  shows client_id -> shows client_name ->
  let ack := PDict [ (lit "cmd", PStr (lit "acknowledge"));
                     (lit "ack", PStr (lit "hello"));
                     (lit "id", client_id);
                     (lit "name", client_name) ] in
  let wire := utf8_encode (json_dumps ack) in
  writable (tcp_sock_of b conn) = true ->
  closed (tcp_sock_of b conn) = false ->
  Z.of_nat (length wire) < 2 ^ 32 ->
  exists b',
    tcp_dispatch conn (PDict o) b = Continue b' /\
    tcp_identities b' !! conn = Some (Identity client_id client_name) /\
    sent (tcp_sock_of b' conn)
    = sent (tcp_sock_of b conn) ++ le_split 4 (Z.of_nat (length wire)) ++ wire /\
    loop_tasks b' = loop_tasks b ++ [ack] /\
    ws_clients b' = ws_clients b /\
    web_socks b' = web_socks b /\
    (forall ws, ws ∈ ws_clients b' ->
       ws_open (web_sock_of (web_socks b') ws) = true ->
       outbox (web_sock_of (web_socks (broadcast ack b')) ws)
       = outbox (web_sock_of (web_socks b') ws) ++ [json_dumps ack]).
Proof.
  intros Hcmd client_id client_name Hpi Hpn ack wire Hw Hc Hl.
  unfold tcp_dispatch. rewrite Hcmd.
  replace (py_eq (PStr (lit "hello")) (PStr (lit "hello"))) with true
    by (vm_compute; reflexivity).
  fold client_id client_name. unfold py_print. cbn [forallb].
  unfold shows in Hpi, Hpn. rewrite Hpi, Hpn. cbn [andb].
  unfold hello_ack. fold ack. fold wire.
  unfold send_frame_to.
  set (b0 := set_tcp_identities (insert conn (Identity client_id client_name)) b).
  assert (Hsock : tcp_sock_of b0 conn = tcp_sock_of b conn) by reflexivity.
  pose proof (after_send_framed (tcp_sock_of b conn) wire Hw Hc Hl) as Ha.
  unfold after_send in Ha. rewrite Hsock.
  destruct (send_frame (tcp_sock_of b conn) wire) as [s'|e] eqn:Es.
  - subst s'. simpl. eexists. split; [reflexivity|].
    split; [apply lookup_insert_eq|].
    split; [unfold tcp_sock_of; simpl; rewrite lookup_insert_eq; reflexivity|].
    split; [reflexivity|]. split; [reflexivity|]. split; [reflexivity|].
    intros ws Hin Ho.
    match goal with |- context [broadcast ack ?x] =>
      destruct (app_broadcast_spec ack x) as (_ & Hout & _) end.
    apply Hout; assumption.
  - exfalso. unfold send_frame, struct_pack_I in Es.
    replace (0 <=? Z.of_nat (length wire)) with true in Es
      by (symmetry; apply Z.leb_le; lia).
    replace (Z.of_nat (length wire) <? 2 ^ 32) with true in Es
      by (symmetry; apply Z.ltb_lt; lia).
    simpl in Es. unfold sendall in Es. rewrite Hw, Hc in Es. discriminate.
Qed.

Lemma tcp_loop_empty_frame (conn : nat) (rx rx' : stream) (b : bridge) :
  recv_frame rx = Ret ([], rx') -> tcp_loop conn rx b = (b, None).
Proof.
  intros Hr. funelim (tcp_loop conn rx b); try reflexivity; congruence.
Qed.

(** C10. A frame of length zero ends the connection: [recv_frame]
    returns the empty byte string without raising, the loop of
    [handle_tcp_client] stops there with nothing dispatched, and the
    handler removes the connection from [tcp_clients] and
    [tcp_identities] and closes its socket; nothing is written to any
    socket and no broadcast is scheduled. *)
Theorem empty_frame_disconnects (conn : nat) (rx : stream) (b : bridge) :
  take 4 (stream_bytes rx) = [Byte.x00; Byte.x00; Byte.x00; Byte.x00] ->
  (exists rx', recv_frame rx = Ret ([], rx')) /\
  tcp_loop conn rx b = (b, None) /\
  (let b' := fst (handle_tcp_client conn rx b) in
   snd (handle_tcp_client conn rx b) = None /\
   (conn ∉ tcp_clients b') /\
   tcp_identities b' !! conn = None /\
   closed (tcp_sock_of b' conn) = true /\
   sent (tcp_sock_of b' conn) = sent (tcp_sock_of b conn) /\
   (forall c, c <> conn -> tcp_sock_of b' c = tcp_sock_of b c) /\
   web_socks b' = web_socks b /\
   loop_tasks b' = loop_tasks b).
Proof.
  intros Hz.
  assert (Hrecv : exists rx', recv_frame rx = Ret ([], rx')).
  { pose proof (recv_frame_spec rx) as Hs. simpl in Hs.
    assert (Hn : announced_length (stream_bytes rx) = 0%nat).
    { unfold announced_length. rewrite Hz. reflexivity. }
    assert (H4 : (4 <= length (stream_bytes rx))%nat).
    { apply (f_equal length) in Hz. rewrite length_take in Hz. cbn [length] in Hz. lia. }
    rewrite Hn in Hs. rewrite decide_True in Hs by (split; [exact H4|lia]).
    destruct Hs as (rx' & Hr & _). exists rx'. rewrite Hr. reflexivity. }
  split; [exact Hrecv|].
  destruct Hrecv as [rx' Hr].
  split; [exact (tcp_loop_empty_frame conn rx rx' b Hr)|].
  unfold handle_tcp_client.
  rewrite (tcp_loop_empty_frame conn rx rx' _ Hr).
  split; [reflexivity|].
  split.
  { simpl. intros Hx. apply elem_of_difference in Hx as [_ Hx].
    apply Hx, elem_of_singleton. reflexivity. }
  split; [simpl; apply lookup_delete_eq|].
  unfold close_conn, tcp_sock_of. simpl. rewrite lookup_insert_eq.
  split; [reflexivity|]. split; [reflexivity|].
  split; [|split; reflexivity].
  intros c Hne. rewrite lookup_insert_ne by auto. reflexivity.
Qed.

End RoutingClaims.

(** * The model on concrete inputs, with the reference runtime *)

Section Examples.
Import Py Core Websockets TcpHelpers App RefRuntime.

(** ** Frames *)

Example send_frame_hi :
  send_frame fresh_sock (ascii_bytes "hi")
  = Ret (TcpSock [Byte.x02; Byte.x00; Byte.x00; Byte.x00; Byte.x68; Byte.x69]
                 true false).
Proof. vm_compute. reflexivity. Qed.

Example recv_frame_in_three_segments :
  recv_frame [[Byte.x02; Byte.x00]; [Byte.x00; Byte.x00; Byte.x68];
              [Byte.x69; Byte.x07]]
  = Ret (ascii_bytes "hi", [[Byte.x07]]).
Proof. vm_compute. reflexivity. Qed.

Example recv_frame_closed_peer : recv_frame [] = Raise ConnectionError.
Proof. vm_compute. reflexivity. Qed.

Lemma frame_roundtrip_witness :
  Z.of_nat (length (ascii_bytes "hi")) < 2 ^ 32 /\
  exists s' wire,
    send_frame fresh_sock (ascii_bytes "hi") = Ret s' /\
    sent s' = sent fresh_sock ++ wire /\
    wire = le_split 4 (Z.of_nat (length (ascii_bytes "hi"))) ++ ascii_bytes "hi" /\
    forall rx : stream, stream_bytes rx = wire ->
      exists rx', recv_frame rx = Ret (ascii_bytes "hi", rx') /\ stream_bytes rx' = [].
Proof.
  split; [vm_compute; reflexivity|].
  apply (frame_roundtrip (ascii_bytes "hi") fresh_sock);
    [vm_compute; reflexivity|reflexivity|reflexivity].
Defined.

Lemma recv_frame_closed_early_witness :
  (length (stream_bytes short_stream) < 4
   \/ length (stream_bytes short_stream)
      < 4 + announced_length (stream_bytes short_stream))%nat /\
  recv_frame short_stream = Raise ConnectionError.
Proof.
  assert (Hshort : (length (stream_bytes short_stream) < 4
            \/ length (stream_bytes short_stream)
               < 4 + announced_length (stream_bytes short_stream))%nat).
  { right. vm_compute. lia. }
  split; [exact Hshort|].
  exact (proj1 (recv_frame_closed_early short_stream) Hshort).
Defined.

(** ** Command names *)

Example normalize_cmd_controllers :
  normalize_cmd (PStr (lit "x"))
    [ (lit "cmd", PStr (lit "x")); (lit "controllers", PList []) ] (PList [])
  = Ret (PStr (lit "read_all_controllers")).
Proof. vm_compute. reflexivity. Qed.

Example normalize_cmd_no_payload_key :
  normalize_cmd (PStr (lit "x")) [ (lit "cmd", PStr (lit "x")) ] PNone
  = Ret (PStr (lit "x")).
Proof. vm_compute. reflexivity. Qed.

Example normalize_cmd_absent :
  normalize_cmd PNone [ (lit "morphs", PNone) ] PNone = Ret (PStr []).
Proof. vm_compute. reflexivity. Qed.

(** A name that is already [read_all_morphs] falls through to the
    controllers rule when the envelope has both keys. *)
Example normalize_cmd_both_keys :
  normalize_cmd (PStr (lit "read_all_morphs"))
    [ (lit "morphs", PList []); (lit "controllers", PList []) ] (PList [])
  = Ret (PStr (lit "read_all_controllers")).
Proof. vm_compute. reflexivity. Qed.

Example extract_payload_prefers_data :
  extract_payload
    [ (lit "controllers", PList [PInt 3]); (lit "morphs", PNone);
      (lit "data", PInt 1) ]
  = PInt 1.
Proof. vm_compute. reflexivity. Qed.

Lemma payload_precedence_and_cmd_rewrite_witness :
  ~ is_result_name (Some (lit "x")) /\
  (PList [PInt 1] <> PNone /\ py_in (lit "morphs") morphs_envelope = true /\
   Some (lit "x") <> Some (lit "read_all_morphs") /\
   Some (lit "x") <> Some (lit "read_all_morphs_result")) /\
  carries morphs_envelope (lit "morphs") (PList [PInt 1]) /\
  lacks morphs_envelope (lit "data") /\
  extract_payload morphs_envelope = PList [PInt 1] /\
  normalize_cmd (PStr (lit "x")) morphs_envelope (PList [PInt 1])
  = Ret (PStr (lit "read_all_morphs")).
Proof.
  assert (Hnr : ~ is_result_name (Some (lit "x"))).
  { vm_compute. discriminate. }
  assert (Hrule : PList [PInt 1] <> PNone /\
                  py_in (lit "morphs") morphs_envelope = true /\
                  Some (lit "x") <> Some (lit "read_all_morphs") /\
                  Some (lit "x") <> Some (lit "read_all_morphs_result")).
  { repeat split; try discriminate. }
  assert (Hcar : carries morphs_envelope (lit "morphs") (PList [PInt 1])).
  { split; [reflexivity|discriminate]. }
  assert (Hlack : lacks morphs_envelope (lit "data")).
  { left. reflexivity. }
  destruct (payload_precedence_and_cmd_rewrite morphs_envelope (Some (lit "x"))
              (PList [PInt 1]))
    as (_ & Hmorphs & _ & _ & Hcmd).
  split; [exact Hnr|]. split; [exact Hrule|]. split; [exact Hcar|].
  split; [exact Hlack|]. split.
  - exact (Hmorphs _ Hlack Hcar).
  - exact (proj1 (Hcmd Hnr) Hrule).
Defined.

Lemma normalize_cmd_keeps_results_witness :
  str_endswith (lit "read_all_morphs_result") (lit "_result") = true /\
  normalize_cmd (PStr (lit "read_all_morphs_result")) morphs_envelope
                (PList [PInt 1])
  = Ret (PStr (lit "read_all_morphs_result")).
Proof.
  split; [vm_compute; reflexivity|].
  apply (normalize_cmd_keeps_results (lit "read_all_morphs_result")
           morphs_envelope (PList [PInt 1])).
  vm_compute. reflexivity.
Defined.

(** ** Controllers *)

Example normalize_spec_controllers :
  normalize_controllers spec_controllers
  = Ret [ [ (lit "id", PStr (lit "l_hand"));
            (lit "rotation", PDict [ (lit "w", PFloat float_one) ]) ];
          [ (lit "id", PStr (lit "r_hand"));
            (lit "rotation",
             PDict [ (lit "x", PInt 0); (lit "y", PInt 0); (lit "z", PInt 0);
                     (lit "w", PFloat float_one) ]) ] ].
Proof. vm_compute. reflexivity. Qed.

(** Ids that are not strings: [7] is converted, [w] given as null is
    replaced, a given [w] is kept. *)
Example normalize_numeric_id :
  normalize_controllers
    [ [ (lit "id", PInt 7); (lit "rotation", PDict [ (lit "w", PNone) ]) ];
      [ (lit "id", PStr [32; 9; 160]%N) ];
      [ (lit "id", PStr (lit "a")); (lit "rotation", PDict [ (lit "w", PInt 0) ]);
        (lit "position", PList [PInt 1]) ] ]
  = Ret [ [ (lit "id", PStr (lit "7"));
            (lit "rotation", PDict [ (lit "w", PFloat float_one) ]) ];
          [ (lit "id", PStr (lit "a")); (lit "rotation", PDict [ (lit "w", PInt 0) ]);
            (lit "position", PList [PInt 1]) ] ].
Proof. vm_compute. reflexivity. Qed.



Example send_set_controller_nothing_valid :
  send_set_controller (lit "2025-01-01T00:00:00Z") fresh_sock
    [ [ (lit "id", PStr []) ]; [ (lit "name", PStr (lit "x")) ] ]
  = Ret fresh_sock.
Proof. vm_compute. reflexivity. Qed.

Example send_set_controller_one :
  send_set_controller (lit "T") fresh_sock [ [ (lit "id", PStr (lit "a")) ] ]
  = send_frame fresh_sock
      (json_bytes "{'cmd':'set_controller','data':[{'id':'a','rotation':{'w':1.0}}],'ts':'T'}").
Proof. vm_compute. reflexivity. Qed.

(** ** The bridge *)

Example broadcast_demo :
  let b' := broadcast (PDict [ (lit "cmd", PStr (lit "pong")) ]) demo_bridge in
  elements (ws_clients b') = [10%nat] /\
  web_sock_of (web_socks b') 10%nat = WebSock [json_lit "{'cmd': 'pong'}"] true /\
  web_sock_of (web_socks b') 11%nat = WebSock [] false.
Proof. vm_compute. auto. Qed.

Lemma demo_plugin_a_registered :
  registered_as demo_bridge 1%nat (PStr (lit "p1")) (PStr (lit "PluginA")).
Proof. exists plugin_a. repeat split. Defined.

Lemma demo_plugin_a_unique (conn : nat) :
  conn ∈ tcp_clients demo_bridge ->
  registered_as demo_bridge conn (PStr (lit "p1")) (PStr (lit "PluginA")) ->
  conn = 1%nat.
Proof.
  intros _ (ident & Hi & Hid & _).
  destruct (decide (conn = 1%nat)) as [->|H1]; [reflexivity|].
  destruct (decide (conn = 2%nat)) as [->|H2].
  - vm_compute in Hi. inversion Hi; subst ident. discriminate Hid.
  - unfold demo_bridge in Hi. simpl in Hi.
    rewrite !lookup_insert_ne, lookup_empty in Hi by auto. discriminate Hi.
Defined.




Lemma forward_targets_matching_identities_witness :
  (py_get morphs_query (lit "cmd") PNone <> PStr (lit "hello") /\
   text_or_absent (py_get morphs_query (lit "id") PNone) /\
   text_or_absent (py_get morphs_query (lit "name") PNone)) /\
  exists b',
    ws_dispatch 10%nat (PDict morphs_query) demo_bridge = Continue b' /\
    sent (tcp_sock_of b' 1%nat)
    = framed (json_bytes morphs_query_text) /\
    tcp_sock_of b' 2%nat = fresh_sock /\
    tcp_sock_of b' 3%nat = fresh_sock.
Proof.
  assert (Hcmd : py_get morphs_query (lit "cmd") PNone <> PStr (lit "hello")).
  { vm_compute. discriminate. }
  assert (Hid : text_or_absent (py_get morphs_query (lit "id") PNone)).
  { right. eexists. reflexivity. }
  assert (Hname : text_or_absent (py_get morphs_query (lit "name") PNone)).
  { right. eexists. reflexivity. }
  split; [auto|].
  destruct (forward_targets_matching_identities 10%nat morphs_query demo_bridge
              Hcmd Hid Hname) as (b' & Hd & Hto & Hnot & Hnone).
  exists b'. split; [exact Hd|]. split; [|split].
  - assert (Hin : 1%nat ∈ tcp_clients demo_bridge) by (vm_compute; reflexivity).
    destruct (Hto 1%nat Hin demo_plugin_a_registered) as [_ Hsent].
    rewrite Hsent; [vm_compute; reflexivity|reflexivity|reflexivity|].
    vm_compute. reflexivity.
  - rewrite Hnot; [reflexivity|].
    intros [_ (ident & Hi & Hx & _)].
    vm_compute in Hi. inversion Hi; subst ident. discriminate Hx.
  - rewrite Hnone; reflexivity.
Defined.

Lemma set_controller_forwarded_verbatim_witness :
  (py_get set_controller_envelope (lit "cmd") PNone = PStr (lit "set_controller") /\
   1%nat ∈ tcp_clients demo_bridge /\
   registered_as demo_bridge 1%nat (PStr (lit "p1")) (PStr (lit "PluginA"))) /\
  exists b',
    ws_dispatch 10%nat (PDict set_controller_envelope) demo_bridge = Continue b' /\
    sent (tcp_sock_of b' 1%nat)
    = framed (json_bytes set_controller_text) /\
    (forall conn, conn <> 1%nat -> tcp_sock_of b' conn = tcp_sock_of demo_bridge conn).
Proof.
  assert (Hin : 1%nat ∈ tcp_clients demo_bridge) by (vm_compute; reflexivity).
  split; [split; [reflexivity|split; [exact Hin|exact demo_plugin_a_registered]]|].
  assert (Hlen : Z.of_nat (length (utf8_encode
                     (json_dumps (PDict set_controller_envelope)))) < 2 ^ 32)
    by (vm_compute; reflexivity).
  destruct (set_controller_forwarded_verbatim 10%nat 1%nat set_controller_envelope
              (lit "p1") (lit "PluginA") demo_bridge eq_refl eq_refl eq_refl
              Hin demo_plugin_a_registered demo_plugin_a_unique
              eq_refl eq_refl Hlen)
    as (b' & Hd & Hsent & Hother).
  exists b'. split; [exact Hd|]. split; [|exact Hother].
  rewrite Hsent. vm_compute. reflexivity.
Defined.

(** What plugin [(p1, PluginA)] receives is the envelope of the browser:
    reading the frame back gives the controllers as they were sent, the
    entry with the empty [id] among them and no [rotation] added, which is
    not their normal form. *)
Lemma set_controller_not_normalized :
  exists b' payload rest message normalized,
    ws_dispatch 10%nat (PDict set_controller_envelope) demo_bridge = Continue b' /\
    recv_frame [sent (tcp_sock_of b' 1%nat)] = Ret (payload, rest) /\
    utf8_decode payload ≫= json_loads = Some (PDict message) /\
    dict_lookup (lit "controllers") message
    = Some (PList (map PDict raw_controllers)) /\
    extract_payload message = PList (map PDict raw_controllers) /\
    normalize_controllers raw_controllers = Ret normalized /\
    normalized
    = [ [ (lit "id", PStr (lit "l_hand"));
          (lit "rotation", PDict [ (lit "w", PFloat float_one) ]) ] ] /\
    map PDict normalized <> map PDict raw_controllers.
Proof.
  eexists. eexists. eexists. eexists. eexists.
  split; [vm_compute; reflexivity|].
  split; [vm_compute; reflexivity|].
  split; [vm_compute; reflexivity|].
  split; [vm_compute; reflexivity|].
  split; [vm_compute; reflexivity|].
  split; [vm_compute; reflexivity|].
  split; [reflexivity|].
  intros E. apply (f_equal length) in E. discriminate E.
Qed.

Lemma tcp_hello_acknowledged_witness :
  (py_get hello_envelope (lit "cmd") PNone = PStr (lit "hello") /\
   writable (tcp_sock_of demo_bridge 3%nat) = true /\
   closed (tcp_sock_of demo_bridge 3%nat) = false) /\
  exists b',
    tcp_dispatch 3%nat (PDict hello_envelope) demo_bridge = Continue b' /\
    tcp_identities b' !! 3%nat
    = Some (Identity (PStr (lit "p3")) (PStr (lit "PluginC"))) /\
    sent (tcp_sock_of b' 3%nat) = framed (json_bytes hello_ack_text) /\
    loop_tasks b' = [hello_ack (PStr (lit "p3")) (PStr (lit "PluginC"))] /\
    outbox (web_sock_of
              (web_socks (broadcast (hello_ack (PStr (lit "p3")) (PStr (lit "PluginC"))) b'))
              10%nat)
    = [json_lit hello_ack_text].
Proof.
  split; [repeat split|].
  assert (Hlen : Z.of_nat (length (utf8_encode (json_dumps
                     (PDict [ (lit "cmd", PStr (lit "acknowledge"));
                              (lit "ack", PStr (lit "hello"));
                              (lit "id", py_get hello_envelope (lit "id") (PStr (lit "")));
                              (lit "name", py_get hello_envelope (lit "name") (PStr (lit ""))) ]))))
                 < 2 ^ 32)
    by (vm_compute; reflexivity).
  assert (Hpi : shows (py_get hello_envelope (lit "id") (PStr (lit ""))))
    by (vm_compute; reflexivity).
  assert (Hpn : shows (py_get hello_envelope (lit "name") (PStr (lit ""))))
    by (vm_compute; reflexivity).
  destruct (tcp_hello_acknowledged 3%nat hello_envelope demo_bridge
              eq_refl Hpi Hpn eq_refl eq_refl Hlen)
    as (b' & Hd & Hi & Hsent & Hq & Hc & Hw & Hb).
  exists b'. split; [exact Hd|]. split; [exact Hi|]. split; [|split].
  - rewrite Hsent. vm_compute. reflexivity.
  - exact Hq.
  - assert (Hin : 10%nat ∈ ws_clients b') by (rewrite Hc; vm_compute; reflexivity).
    assert (Ho : ws_open (web_sock_of (web_socks b') 10%nat) = true)
      by (rewrite Hw; reflexivity).
    etransitivity; [exact (Hb 10%nat Hin Ho)|].
    rewrite Hw. vm_compute. reflexivity.
Defined.

Lemma hello_unprintable_not_acknowledged_witness :
  (utf8_decode (json_bytes surrogate_hello_text) ≫= json_loads
   = Some (PDict surrogate_hello) /\
   py_get surrogate_hello (lit "cmd") PNone = PStr (lit "hello")) /\
  exists b',
    tcp_dispatch 3%nat (PDict surrogate_hello) demo_bridge
    = Propagate UnicodeEncodeError b' /\
    tcp_socks b' = tcp_socks demo_bridge /\
    loop_tasks b' = [].
Proof.
  split; [split; [vm_compute; reflexivity|reflexivity]|].
  assert (Hp : printable (py_str (py_get surrogate_hello (lit "id")
                                    (PStr (lit ""))))
               && printable (py_str (py_get surrogate_hello (lit "name")
                                       (PStr (lit "")))) = false)
    by (vm_compute; reflexivity).
  destruct (hello_unprintable_not_acknowledged 3%nat surrogate_hello
              demo_bridge eq_refl Hp) as (b' & Hd & _ & Hs & Hq & _).
  exists b'. split; [exact Hd|]. split; [exact Hs|exact Hq].
Defined.

(** That hello arriving as a frame: the handler ends with the exception of
    [print]; the connection got no acknowledgement, no browser will get
    one, and the connection is closed and forgotten. *)
Example surrogate_hello_then_close :
  let r := handle_tcp_client 3%nat [framed (json_bytes surrogate_hello_text)]
             demo_bridge in
  snd r = Some UnicodeEncodeError /\
  sent (tcp_sock_of (fst r) 3%nat) = [] /\
  closed (tcp_sock_of (fst r) 3%nat) = true /\
  tcp_identities (fst r) !! 3%nat = None /\
  loop_tasks (fst r) = [] /\
  web_socks (fst r) = web_socks demo_bridge.
Proof.
  cbv zeta. repeat split; vm_compute; reflexivity.
Qed.

(** The same hello arriving as a frame in two segments, then the peer
    closing: the acknowledgement is sent and scheduled for broadcast, the
    handler removes the connection again when it ends, and the event loop
    then delivers the acknowledgement to the browser. *)
Example hello_then_close :
  let frame := framed (json_bytes "{'cmd':'hello','id':'p3','name':'PluginC'}") in
  let r := handle_tcp_client 3%nat [take 10 frame; drop 10 frame] demo_bridge in
  snd r = None /\
  sent (tcp_sock_of (fst r) 3%nat) = framed (json_bytes hello_ack_text) /\
  closed (tcp_sock_of (fst r) 3%nat) = true /\
  tcp_clients (fst r) = {[ 1%nat; 2%nat ]} /\
  tcp_identities (fst r) !! 3%nat = None /\
  loop_tasks (fst r) = [hello_ack (PStr (lit "p3")) (PStr (lit "PluginC"))] /\
  outbox (web_sock_of (web_socks (run_loop_task (fst r))) 10%nat)
  = [json_lit hello_ack_text].
Proof.
  cbv zeta. repeat split; vm_compute; reflexivity.
Qed.

Lemma empty_frame_disconnects_witness :
  take 4 (stream_bytes empty_frame_stream)
  = [Byte.x00; Byte.x00; Byte.x00; Byte.x00] /\
  (exists rx', recv_frame empty_frame_stream = Ret ([], rx')) /\
  tcp_loop 1%nat empty_frame_stream demo_bridge = (demo_bridge, None) /\
  snd (handle_tcp_client 1%nat empty_frame_stream demo_bridge) = None.
Proof.
  split; [reflexivity|].
  destruct (empty_frame_disconnects 1%nat empty_frame_stream demo_bridge eq_refl)
    as (Hr & Hl & He & _).
  split; [exact Hr|]. split; [exact Hl|exact He].
Defined.

End Examples.

(** * Further properties of the code *)

(** ** Reading from a stream *)

Section StreamFacts.
Import Core.

(** A frame at the head of a stream is read and the rest is left. *)
Lemma recv_frame_prefix (p rest : list byte) (rx : stream) :
  Z.of_nat (length p) < 2 ^ 32 ->
  stream_bytes rx = le_split 4 (Z.of_nat (length p)) ++ p ++ rest ->
  exists rx', recv_frame rx = Ret (p, rx') /\ stream_bytes rx' = rest.
Proof.
  intros Hlen Hrx.
  pose proof (recv_frame_spec rx) as H. simpl in H. rewrite Hrx in H.
  set (hdr := le_split 4 (Z.of_nat (length p))) in *.
  assert (Hl : length hdr = 4%nat) by apply length_le_split.
  assert (Hh : take 4 (hdr ++ p ++ rest) = hdr).
  { rewrite take_app_length'; [reflexivity|symmetry; exact Hl]. }
  assert (Hd : drop 4 (hdr ++ p ++ rest) = p ++ rest).
  { rewrite drop_app_length'; [reflexivity|symmetry; exact Hl]. }
  assert (Hn : announced_length (hdr ++ p ++ rest) = length p).
  { unfold announced_length. rewrite Hh. unfold hdr. rewrite le_combine_split.
    rewrite Z.mod_small by (change (2 ^ (Z.of_nat 4 * 8)) with (2 ^ 32); lia).
    apply Nat2Z.id. }
  rewrite Hn, Hd in H.
  rewrite decide_True in H.
  - destruct H as (rx' & Hr & Hs). exists rx'. split.
    + rewrite Hr. rewrite take_app_length. reflexivity.
    + rewrite Hs. rewrite drop_app_length. reflexivity.
  - split; [rewrite !length_app; lia|rewrite length_app; lia].
Qed.

(** X1. [recv_exact(conn, n)] returns the first [n] bytes of what the
    connection delivers and leaves the bytes after them to be read,
    whenever [n] bytes arrive before the peer closes; it raises
    [ConnectionError] otherwise.  What it returns is never shorter or
    longer than [n], and no byte is lost or reordered. *)
Theorem recv_exact_exactly (rx : stream) (n : nat) :
  ((n <= length (stream_bytes rx))%nat ->
     exists rx', recv_exact rx n = Ret (take n (stream_bytes rx), rx') /\
                 stream_bytes rx' = drop n (stream_bytes rx)) /\
  ((length (stream_bytes rx) < n)%nat ->
     recv_exact rx n = Raise ConnectionError) /\
  (forall bs rx', recv_exact rx n = Ret (bs, rx') ->
     length bs = n /\ bs ++ stream_bytes rx' = stream_bytes rx).
Proof.
  pose proof (recv_exact_spec rx n) as H.
  destruct (decide (n <= length (stream_bytes rx))%nat) as [Hle|Hgt].
  - destruct H as (rx1 & Hr & Hs). split; [|split].
    + intros _. exists rx1. auto.
    + intros Hlt. lia.
    + intros bs rx' Hb. rewrite Hr in Hb. inversion Hb; subst. split.
      * rewrite length_take. lia.
      * rewrite Hs. apply take_drop.
  - split; [|split].
    + intros Hle. lia.
    + intros _. exact H.
    + intros bs rx' Hb. rewrite H in Hb. discriminate.
Qed.

(** X2. [recv_frame] reads one frame and no more: when two frames
    written by [send_frame] arrive back to back, in whatever segments and
    with whatever follows them, the first call returns the first payload,
    the second call the second payload, and the bytes that follow are left
    unread. *)
Theorem recv_frame_one_by_one (p1 p2 rest : list byte) (rx : stream) :
  Z.of_nat (length p1) < 2 ^ 32 ->
  Z.of_nat (length p2) < 2 ^ 32 ->
  stream_bytes rx
  = (le_split 4 (Z.of_nat (length p1)) ++ p1)
    ++ (le_split 4 (Z.of_nat (length p2)) ++ p2) ++ rest ->
  exists rx1 rx2,
    recv_frame rx = Ret (p1, rx1) /\
    recv_frame rx1 = Ret (p2, rx2) /\
    stream_bytes rx2 = rest.
Proof.
  intros H1 H2 Hrx.
  rewrite <- app_assoc in Hrx.
  destruct (recv_frame_prefix p1 _ rx H1 Hrx) as (rx1 & Hr1 & Hs1).
  rewrite <- app_assoc in Hs1.
  destruct (recv_frame_prefix p2 rest rx1 H2 Hs1) as (rx2 & Hr2 & Hs2).
  exists rx1, rx2. auto.
Qed.

(** X3. What [recv_frame] returns depends on the bytes that arrive, not on
    how the network cut them into segments: two streams that carry the
    same bytes give the same payload and leave the same bytes, or both
    raise the same exception. *)
Theorem recv_frame_ignores_segmentation (rx1 rx2 : stream) :
  stream_bytes rx1 = stream_bytes rx2 ->
  match recv_frame rx1, recv_frame rx2 with
  | Ret (p1, rest1), Ret (p2, rest2) =>
      p1 = p2 /\ stream_bytes rest1 = stream_bytes rest2
  | Raise e1, Raise e2 => e1 = e2
  | _, _ => False
  end.
Proof.
  intros Hb.
  pose proof (recv_frame_spec rx1) as H1. pose proof (recv_frame_spec rx2) as H2.
  simpl in H1, H2. rewrite <- Hb in H2.
  destruct (decide _) as [Hok|Hno] in H1.
  - rewrite decide_True in H2 by exact Hok.
    destruct H1 as (r1 & -> & Hs1). destruct H2 as (r2 & -> & Hs2).
    split; [reflexivity|congruence].
  - rewrite decide_False in H2 by exact Hno. rewrite H1, H2. reflexivity.
Qed.

End StreamFacts.

(** ** The handler of a native connection *)

Section TcpHandlerFacts.
Import Py Core Websockets App.
Context {rt : PyRuntime}.

(** One turn of the loop of [handle_tcp_client]. *)
Lemma tcp_loop_unfold (conn : nat) (rx : stream) (b : bridge) :
  tcp_loop conn rx b =
  match recv_frame rx with
  | Raise _ => (b, None)
  | Ret ([], _) => (b, None)
  | Ret (frame, rx') =>
      match utf8_decode frame ≫= json_loads with
      | None => (b, None)
      | Some obj =>
          match tcp_dispatch conn obj b with
          | Continue b' => tcp_loop conn rx' b'
          | Propagate e b' => (b', Some e)
          end
      end
  end.
Proof.
  funelim (tcp_loop conn rx b);
    repeat match goal with
           | E : _ = {| pr1 := _; pr2 := _ |} |- _ => clear E
           | E : recv_frame _ = _ |- _ => rewrite E; clear E
           | E : _ ≫= _ = _ |- _ => rewrite E; clear E
           | E : tcp_dispatch _ _ _ = _ |- _ => rewrite E; clear E
           end;
    reflexivity.
Qed.

(** A property kept by every turn holds when the loop ends. *)
Lemma tcp_loop_invariant (P : bridge -> Prop) (conn : nat) :
  (forall obj b, P b -> P (state_after (tcp_dispatch conn obj b))) ->
  forall rx b, P b -> P (fst (tcp_loop conn rx b)).
Proof.
  intros Hstep rx.
  remember (length (stream_bytes rx)) as n eqn:Hn. revert rx Hn.
  induction n as [n IH] using lt_wf_ind. intros rx -> b Hb.
  rewrite tcp_loop_unfold.
  destruct (recv_frame rx) as [[frame rx']|] eqn:E; [|exact Hb].
  destruct frame as [|x frame]; [exact Hb|].
  destruct (utf8_decode (x :: frame) ≫= json_loads) as [obj|]; [|exact Hb].
  specialize (Hstep obj b Hb).
  destruct (tcp_dispatch conn obj b) as [b'|e b']; simpl in Hstep.
  - apply (IH _ (recv_frame_consumes _ _ _ _ E) rx' eq_refl). exact Hstep.
  - exact Hstep.
Qed.

Lemma send_frame_sent (s s' : tcp_sock) (payload : list byte) :
  send_frame s payload = Ret s' ->
  sent s' = sent s ++ le_split 4 (Z.of_nat (length payload)) ++ payload /\
  writable s' = writable s /\ closed s' = closed s.
Proof.
  unfold send_frame, struct_pack_I, sendall.
  destruct ((0 <=? _) && (_ <? _)); simpl; [|discriminate].
  destruct (writable s && negb (closed s)); [|discriminate].
  intros E. inversion E; subst. simpl. auto.
Qed.

Lemma native_effects_refl (conn : nat) (b : bridge) : native_effects conn b b.
Proof.
  repeat split; auto; [exists []|exists []]; rewrite app_nil_r; reflexivity.
Qed.

Lemma native_effects_trans (conn : nat) (b0 b1 b2 : bridge) :
  native_effects conn b0 b1 -> native_effects conn b1 b2 ->
  native_effects conn b0 b2.
Proof.
  intros (A1 & A2 & A3 & A4 & A5 & [q1 A6] & [o1 A7])
         (B1 & B2 & B3 & B4 & B5 & [q2 B6] & [o2 B7]).
  repeat split; try congruence.
  - destruct (A5 c H) as [E _], (B5 c H) as [F _]. congruence.
  - destruct (A5 c H) as [_ E], (B5 c H) as [_ F]. congruence.
  - exists (q1 ++ q2). rewrite B6, A6, app_assoc. reflexivity.
  - exists (o1 ++ o2). rewrite B7, A7, app_assoc. reflexivity.
Qed.

(** One turn changes nothing but what a native handler may change. *)
Lemma tcp_dispatch_effects (conn : nat) (obj : pyval) (b : bridge) :
  native_effects conn b (state_after (tcp_dispatch conn obj b)).
Proof.
  unfold tcp_dispatch.
  destruct obj as [| | | | |l|o]; try apply native_effects_refl.
  destruct (py_eq _ _).
  - set (b1 := set_tcp_identities _ b).
    assert (H1 : native_effects conn b b1).
    { repeat split; auto.
      - simpl. apply lookup_insert_ne. auto.
      - exists []. rewrite app_nil_r. reflexivity.
      - exists []. rewrite app_nil_r. reflexivity. }
    destruct (py_print _) as [[]|e0]; [|exact H1].
    unfold send_frame_to.
    destruct (send_frame (tcp_sock_of b1 conn) _) as [s'|e] eqn:Es; simpl.
    + apply (native_effects_trans conn b b1); [exact H1|].
      apply send_frame_sent in Es as (Hs & _ & _).
      repeat split; auto.
      * simpl. apply lookup_insert_ne. auto.
      * simpl. eexists. reflexivity.
      * unfold tcp_sock_of at 1. simpl. rewrite lookup_insert_eq. simpl.
        eexists. exact Hs.
    + exact H1.
  - destruct (py_print _) as [[]|e0]; [|apply native_effects_refl].
    simpl. repeat split; auto.
    + simpl. eexists. reflexivity.
    + exists []. rewrite app_nil_r. reflexivity.
Qed.

Lemma tcp_loop_effects (conn : nat) (rx : stream) (b : bridge) :
  native_effects conn b (fst (tcp_loop conn rx b)).
Proof.
  apply (tcp_loop_invariant (native_effects conn b)).
  - intros obj b1 H1. apply (native_effects_trans conn b b1); [exact H1|].
    apply tcp_dispatch_effects.
  - apply native_effects_refl.
Qed.

(** X4. [handle_tcp_client] cleans up on every way out of its loop: peer
    closed, frame that does not parse, empty frame, or an exception of
    the dispatch.  Whatever the connection sent, when the handler returns
    the connection is in [tcp_clients] no more, has no identity, and its
    socket is closed; and the membership and the identity of every other
    connection are what they were. *)
Theorem handle_tcp_client_cleans_up (conn : nat) (rx : stream) (b : bridge) :
  let b' := fst (handle_tcp_client conn rx b) in
  (conn ∉ tcp_clients b') /\
  tcp_identities b' !! conn = None /\
  closed (tcp_sock_of b' conn) = true /\
  (forall c, c <> conn ->
     (c ∈ tcp_clients b' <-> c ∈ tcp_clients b) /\
     tcp_identities b' !! c = tcp_identities b !! c).
Proof.
  unfold handle_tcp_client.
  set (b0 := set_tcp_clients (fun s => s ∪ {[conn]}) b).
  pose proof (tcp_loop_effects conn rx b0) as H.
  destruct (tcp_loop conn rx b0) as [b1 e]. simpl in H. simpl.
  destruct H as (Hc & _ & _ & _ & Hother & _ & _).
  split; [|split; [|split]].
  - intros Hx. apply elem_of_difference in Hx as [_ Hx].
    apply Hx, elem_of_singleton. reflexivity.
  - apply lookup_delete_eq.
  - unfold tcp_sock_of. simpl. rewrite lookup_insert_eq. reflexivity.
  - intros c Hne. split.
    + rewrite Hc. unfold b0. simpl.
      rewrite elem_of_difference, elem_of_union, !elem_of_singleton. tauto.
    + rewrite lookup_delete_ne by auto. apply (Hother c Hne).
Qed.

(** X5. A native handler acts on browsers only through the event loop:
    it writes to no browser socket and to no other native socket, leaves
    the browser set and the browser identities alone, takes nothing back
    from what was sent on its own socket, and only adds to the end of the
    scheduled broadcasts. *)
Theorem handle_tcp_client_stays_in_its_lane
    (conn : nat) (rx : stream) (b : bridge) :
  let b' := fst (handle_tcp_client conn rx b) in
  web_socks b' = web_socks b /\
  ws_clients b' = ws_clients b /\
  ws_identities b' = ws_identities b /\
  (forall c, c <> conn -> tcp_sock_of b' c = tcp_sock_of b c) /\
  (exists out, sent (tcp_sock_of b' conn) = sent (tcp_sock_of b conn) ++ out) /\
  (exists q, loop_tasks b' = loop_tasks b ++ q).
Proof.
  unfold handle_tcp_client.
  set (b0 := set_tcp_clients (fun s => s ∪ {[conn]}) b).
  pose proof (tcp_loop_effects conn rx b0) as H.
  destruct (tcp_loop conn rx b0) as [b1 e]. simpl in H. simpl.
  destruct H as (_ & Hw & Hwi & Hws & Hother & Hq & Hout).
  split; [exact Hws|]. split; [exact Hw|]. split; [exact Hwi|].
  split; [|split].
  - intros c Hne. unfold tcp_sock_of. simpl.
    rewrite lookup_insert_ne by auto.
    destruct (Hother c Hne) as [_ ->]. reflexivity.
  - unfold tcp_sock_of at 1. simpl. rewrite lookup_insert_eq. simpl.
    exact Hout.
  - exact Hq.
Qed.

Lemma recv_frame_empty_stream (rx : stream) :
  stream_bytes rx = [] -> recv_frame rx = Raise ConnectionError.
Proof.
  intros E. pose proof (recv_frame_spec rx) as H. simpl in H. rewrite E in H.
  rewrite decide_False in H by (simpl; lia). exact H.
Qed.

Lemma set_loop_tasks_app (q1 q2 : list pyval) (b : bridge) :
  set_loop_tasks (fun q => q ++ q2) (set_loop_tasks (fun q => q ++ q1) b)
  = set_loop_tasks (fun q => q ++ q1 ++ q2) b.
Proof. unfold set_loop_tasks. simpl. rewrite app_assoc. reflexivity. Qed.

Lemma tcp_loop_commands (conn : nat) (msgs : list (list byte * pydict)) :
  Forall (fun m => command_frame (fst m) (snd m)) msgs ->
  forall rx b,
  identity_shown b conn ->
  stream_bytes rx = concat (map (fun m => framed (fst m)) msgs) ->
  tcp_loop conn rx b
  = (set_loop_tasks (fun q => q ++ map (fun m => PDict (snd m)) msgs) b, None).
Proof.
  induction 1 as [|[payload o] msgs Hm Hms IH]; intros rx b Hshown Hrx.
  - rewrite tcp_loop_unfold, (recv_frame_empty_stream rx Hrx).
    simpl. unfold set_loop_tasks. rewrite app_nil_r. destruct b; reflexivity.
  - destruct Hm as (Hne & Hlen & Hparse & Hcmd & Hshow).
    cbn [map concat fst snd] in *.
    unfold framed in Hrx at 1. rewrite <- app_assoc in Hrx.
    destruct (recv_frame_prefix payload _ rx Hlen Hrx) as (rx' & Hr & Hs).
    rewrite tcp_loop_unfold, Hr.
    destruct payload as [|x payload]; [congruence|].
    rewrite Hparse. unfold tcp_dispatch.
    replace (py_eq (py_get o (lit "cmd") PNone) (PStr (lit "hello"))) with false
      by (symmetry; apply not_true_is_false; rewrite py_eq_str; exact Hcmd).
    unfold py_print. cbn [forallb].
    destruct Hshown as [Hi Hn]. unfold shows in Hshow, Hi, Hn.
    rewrite Hshow, Hi, Hn. cbn [andb].
    rewrite (IH rx' (schedule_broadcast (PDict o) b) (conj Hi Hn) Hs).
    unfold schedule_broadcast.
    rewrite set_loop_tasks_app. reflexivity.
Qed.

(** X6. Commands are broadcast in the order they arrive.  When a native
    connection sends a sequence of frames, each a command that is not a
    [hello], and then closes, and [sys.stdout] can show each command name
    and the identity of the connection (the line printed before each
    broadcast is scheduled), the handler schedules exactly one broadcast
    per frame, of the object the frame parsed to, in the order of the
    frames; it writes nothing back and ends without an exception. *)
Theorem commands_broadcast_in_order
    (conn : nat) (msgs : list (list byte * pydict)) (rx : stream) (b : bridge) :
  Forall (fun m => command_frame (fst m) (snd m)) msgs ->
  identity_shown b conn ->
  stream_bytes rx = concat (map (fun m => framed (fst m)) msgs) ->
  let r := handle_tcp_client conn rx b in
  snd r = None /\
  loop_tasks (fst r) = loop_tasks b ++ map (fun m => PDict (snd m)) msgs /\
  sent (tcp_sock_of (fst r) conn) = sent (tcp_sock_of b conn).
Proof.
  intros Hm Hshown Hrx. unfold handle_tcp_client.
  rewrite (tcp_loop_commands conn msgs Hm rx
             (set_tcp_clients (fun s => s ∪ {[conn]}) b) Hshown Hrx). simpl.
  split; [reflexivity|]. split; [reflexivity|].
  unfold tcp_sock_of at 1. simpl. rewrite lookup_insert_eq. reflexivity.
Qed.

(** X7. A frame that cannot be decoded and parsed ends the connection
    with nothing dispatched, and the frames behind it are never looked
    at; a frame that parses to something other than an object ends the
    loop with [AttributeError], again with the state as it was. *)
Theorem bad_frame_ends_the_loop
    (conn : nat) (payload rest : list byte) (rx : stream) (b : bridge) :
  payload <> [] ->
  Z.of_nat (length payload) < 2 ^ 32 ->
  stream_bytes rx = framed payload ++ rest ->
  (utf8_decode payload ≫= json_loads = None ->
     tcp_loop conn rx b = (b, None)) /\
  (forall v, utf8_decode payload ≫= json_loads = Some v ->
             (forall o, v <> PDict o) ->
             tcp_loop conn rx b = (b, Some AttributeError)).
Proof.
  intros Hne Hlen Hrx. unfold framed in Hrx. rewrite <- app_assoc in Hrx.
  destruct (recv_frame_prefix payload rest rx Hlen Hrx) as (rx' & Hr & _).
  destruct payload as [|x payload]; [congruence|].
  split.
  - intros Hp. rewrite tcp_loop_unfold, Hr, Hp. reflexivity.
  - intros v Hp Hv. rewrite tcp_loop_unfold, Hr, Hp.
    destruct v; try reflexivity. exfalso. apply (Hv d). reflexivity.
Qed.

(** X8. A [hello] whose acknowledgement cannot be written leaves no trace:
    the exception of [send_frame], or before it that of the [print] of the
    identity, ends the handler, no broadcast of the acknowledgement is
    scheduled, the identity registered just before is removed again, and
    nothing was added to the socket. *)
Theorem hello_on_dead_socket
    (conn : nat) (payload rest : list byte) (o : pydict)
    (rx : stream) (b : bridge) :
  payload <> [] ->
  Z.of_nat (length payload) < 2 ^ 32 ->
  stream_bytes rx = framed payload ++ rest ->
  utf8_decode payload ≫= json_loads = Some (PDict o) ->
  py_get o (lit "cmd") PNone = PStr (lit "hello") ->
  writable (tcp_sock_of b conn) && negb (closed (tcp_sock_of b conn)) = false ->
  let r := handle_tcp_client conn rx b in
  (snd r = Some UnicodeEncodeError \/
   snd r = Some OSError \/ snd r = Some StructError) /\
  (shows (py_get o (lit "id") (PStr (lit ""))) ->
   shows (py_get o (lit "name") (PStr (lit ""))) ->
   snd r = Some OSError \/ snd r = Some StructError) /\
  loop_tasks (fst r) = loop_tasks b /\
  tcp_identities (fst r) !! conn = None /\
  sent (tcp_sock_of (fst r) conn) = sent (tcp_sock_of b conn).
Proof.
  intros Hne Hlen Hrx Hp Hcmd Hdead. unfold framed in Hrx.
  rewrite <- app_assoc in Hrx.
  destruct (recv_frame_prefix payload rest rx Hlen Hrx) as (rx' & Hr & _).
  destruct payload as [|x payload]; [congruence|].
  unfold handle_tcp_client. rewrite tcp_loop_unfold, Hr, Hp.
  unfold tcp_dispatch. rewrite Hcmd.
  replace (py_eq (PStr (lit "hello")) (PStr (lit "hello"))) with true
    by (vm_compute; reflexivity).
  unfold py_print, shows. cbn [forallb].
  destruct (printable (py_str (py_get o (lit "id") (PStr (lit ""))))) eqn:Ei;
    [destruct (printable (py_str (py_get o (lit "name") (PStr (lit "")))))
       eqn:En|]; cbn [andb].
  2,3: simpl; split; [auto|]; split; [discriminate|];
       split; [reflexivity|]; split; [apply lookup_delete_eq|];
       unfold tcp_sock_of at 1; simpl; rewrite lookup_insert_eq; reflexivity.
  unfold send_frame_to.
  match goal with |- context [send_frame ?s ?w] =>
    assert (Hs : send_frame s w = Raise OSError \/ send_frame s w = Raise StructError)
  end.
  { unfold send_frame, struct_pack_I.
    destruct ((0 <=? _) && (_ <? _)); simpl; [|auto].
    unfold sendall.
    change (tcp_sock_of (set_tcp_identities _ (set_tcp_clients _ b)) conn)
      with (tcp_sock_of b conn).
    rewrite Hdead. auto. }
  destruct Hs as [Hs|Hs]; rewrite Hs; simpl.
  - split; [auto|]. split; [auto|]. split; [reflexivity|].
    split; [apply lookup_delete_eq|].
    unfold tcp_sock_of at 1. simpl. rewrite lookup_insert_eq. reflexivity.
  - split; [auto|]. split; [auto|]. split; [reflexivity|].
    split; [apply lookup_delete_eq|].
    unfold tcp_sock_of at 1. simpl. rewrite lookup_insert_eq. reflexivity.
Qed.

End TcpHandlerFacts.

(** ** The handler of a browser connection *)

Section WsHandlerFacts.
Import Py Core Websockets App.
Context {rt : PyRuntime}.

Lemma ws_loop_invariant (P : bridge -> Prop) (ws : nat) :
  (forall obj b, P b -> P (state_after (ws_dispatch ws obj b))) ->
  forall msgs b, P b -> P (fst (ws_loop ws msgs b)).
Proof.
  intros Hstep msgs. induction msgs as [|msg msgs IH]; intros b Hb; simpl.
  - exact Hb.
  - destruct (json_loads msg) as [obj|]; [|apply IH; exact Hb].
    specialize (Hstep obj b Hb).
    destruct (ws_dispatch ws obj b) as [b'|e b']; simpl in Hstep.
    + apply IH. exact Hstep.
    + exact Hstep.
Qed.

Lemma after_send_sent (s : tcp_sock) (wire : list byte) :
  exists out, sent (after_send s wire) = sent s ++ out.
Proof.
  unfold after_send. destruct (send_frame s wire) as [s'|e] eqn:E.
  - apply send_frame_sent in E as (-> & _). eexists. reflexivity.
  - exists []. rewrite app_nil_r. reflexivity.
Qed.

Lemma browser_effects_refl (ws : nat) (b : bridge) : browser_effects ws b b.
Proof.
  repeat split; auto. intros conn. exists []. rewrite app_nil_r. reflexivity.
Qed.

Lemma browser_effects_trans (ws : nat) (b0 b1 b2 : bridge) :
  browser_effects ws b0 b1 -> browser_effects ws b1 b2 ->
  browser_effects ws b0 b2.
Proof.
  intros (A1 & A2 & A3 & A4 & A5 & A6) (B1 & B2 & B3 & B4 & B5 & B6).
  split; [congruence|]. split; [congruence|]. split; [congruence|].
  split; [congruence|]. split.
  - intros x Hx. destruct (A5 x Hx) as [E1 E2], (B5 x Hx) as [F1 F2].
    split; congruence.
  - intros conn. destruct (A6 conn) as [o1 E], (B6 conn) as [o2 F].
    exists (o1 ++ o2). rewrite F, E, app_assoc. reflexivity.
Qed.

Lemma ws_dispatch_effects (ws : nat) (obj : pyval) (b : bridge) :
  browser_effects ws b (state_after (ws_dispatch ws obj b)).
Proof.
  destruct obj as [| | | | |l|o]; try apply browser_effects_refl.
  destruct (py_eq (py_get o (lit "cmd") PNone) (PStr (lit "hello"))) eqn:Ecmd.
  - unfold ws_dispatch. rewrite Ecmd.
    set (b1 := set_ws_identities _ b).
    assert (H1 : browser_effects ws b b1).
    { split; [reflexivity|]. split; [reflexivity|]. split; [reflexivity|].
      split; [reflexivity|]. split.
      - intros x Hx. simpl. rewrite lookup_insert_ne by auto. auto.
      - intros conn. exists []. rewrite app_nil_r. reflexivity. }
    destruct (py_print _) as [[]|e0]; [|exact H1].
    unfold ws_send_to.
    destruct (ws_send (web_sock_of (web_socks b1) ws) _) as [s'|e]; simpl;
      [|exact H1].
    apply (browser_effects_trans ws b b1); [exact H1|].
    split; [reflexivity|]. split; [reflexivity|]. split; [reflexivity|].
    split; [reflexivity|]. split.
    + intros x Hx. simpl. rewrite !lookup_insert_ne by auto. auto.
    + intros conn. exists []. rewrite app_nil_r. reflexivity.
  - assert (Hn : py_get o (lit "cmd") PNone <> PStr (lit "hello")).
    { intros E. apply py_eq_str in E. congruence. }
    destruct (ws_dispatch_forward ws o b Hn)
      as (b' & -> & Hs & Hc & Hi & Hw & Hwi & Hws & Hq).
    simpl. split; [exact Hc|]. split; [exact Hi|]. split; [exact Hw|].
    split; [exact Hq|]. split.
    + intros x Hx. rewrite Hwi, Hws. auto.
    + intros conn. rewrite Hs.
      destruct (_ && _); [apply after_send_sent|].
      exists []. rewrite app_nil_r. reflexivity.
Qed.

Lemma ws_loop_effects (ws : nat) (msgs : list pystr) (b : bridge) :
  browser_effects ws b (fst (ws_loop ws msgs b)).
Proof.
  apply (ws_loop_invariant (browser_effects ws b)).
  - intros obj b1 H1. apply (browser_effects_trans ws b b1); [exact H1|].
    apply ws_dispatch_effects.
  - apply browser_effects_refl.
Qed.

(** X9. [ws_handler] cleans up on every way out of its loop: when it
    returns, the browser is in [ws_clients] no more and has no identity,
    whatever it sent and whether or not an exception ended the loop; the
    membership and the identity of every other browser are what they
    were. *)
Theorem ws_handler_cleans_up (ws : nat) (msgs : list pystr) (b : bridge) :
  let b' := fst (ws_handler ws msgs b) in
  (ws ∉ ws_clients b') /\
  ws_identities b' !! ws = None /\
  (forall x, x <> ws ->
     (x ∈ ws_clients b' <-> x ∈ ws_clients b) /\
     ws_identities b' !! x = ws_identities b !! x).
Proof.
  unfold ws_handler.
  set (b0 := set_ws_clients (fun s => s ∪ {[ws]}) b).
  pose proof (ws_loop_effects ws msgs b0) as H.
  destruct (ws_loop ws msgs b0) as [b1 e]. simpl in H. simpl.
  destruct H as (_ & _ & Hw & _ & Hother & _).
  split; [|split].
  - intros Hx. apply elem_of_difference in Hx as [_ Hx].
    apply Hx, elem_of_singleton. reflexivity.
  - apply lookup_delete_eq.
  - intros x Hne. split.
    + rewrite Hw. unfold b0. simpl.
      rewrite elem_of_difference, elem_of_union, !elem_of_singleton. tauto.
    + rewrite lookup_delete_ne by auto. apply (Hother x Hne).
Qed.

(** X10. A browser never changes the native registry and never reaches
    another browser: [ws_handler] leaves [tcp_clients] and
    [tcp_identities] as they were, schedules no broadcast, leaves the
    socket of every other browser untouched, and on the native sockets
    only adds to what was sent. *)
Theorem ws_handler_stays_in_its_lane
    (ws : nat) (msgs : list pystr) (b : bridge) :
  let b' := fst (ws_handler ws msgs b) in
  tcp_clients b' = tcp_clients b /\
  tcp_identities b' = tcp_identities b /\
  loop_tasks b' = loop_tasks b /\
  (forall x, x <> ws ->
     web_sock_of (web_socks b') x = web_sock_of (web_socks b) x) /\
  (forall conn, exists out,
     sent (tcp_sock_of b' conn) = sent (tcp_sock_of b conn) ++ out).
Proof.
  unfold ws_handler.
  set (b0 := set_ws_clients (fun s => s ∪ {[ws]}) b).
  pose proof (ws_loop_effects ws msgs b0) as H.
  destruct (ws_loop ws msgs b0) as [b1 e]. simpl in H. simpl.
  destruct H as (Hc & Hi & _ & Hq & Hother & Hsent).
  split; [exact Hc|]. split; [exact Hi|]. split; [exact Hq|]. split.
  - intros x Hne. unfold web_sock_of.
    destruct (Hother x Hne) as [_ ->]. reflexivity.
  - exact Hsent.
Qed.

(** X11. A message that is not JSON costs a browser nothing: the handler
    skips it and goes on, so the outcome of [ws_handler] is the one it has
    on the messages that parse. *)
Theorem ws_handler_skips_bad_messages
    (ws : nat) (msgs : list pystr) (b : bridge) :
  ws_handler ws msgs b = ws_handler ws (List.filter parses msgs) b.
Proof.
  unfold ws_handler.
  assert (H : forall b0, ws_loop ws msgs b0 = ws_loop ws (List.filter parses msgs) b0).
  { induction msgs as [|msg msgs IH]; intros b0; [reflexivity|].
    simpl. unfold parses at 1.
    destruct (json_loads msg) as [obj|] eqn:E; [|apply IH].
    simpl. rewrite E.
    destruct (ws_dispatch ws obj b0); [apply IH|reflexivity]. }
  rewrite H. reflexivity.
Qed.

(** X12. A browser's [hello] is answered to that browser alone: its
    identity is registered and, when [sys.stdout] can show it, the
    acknowledgement is added to its own messages; no native socket is
    written, although the [id] and [name] may be those of a plugin, and
    nothing is scheduled for the other browsers.  When the identity cannot
    be printed or the acknowledgement cannot be sent, the exception leaves
    the loop with the identity registered and no socket changed. *)
Theorem ws_hello_answered_in_private (ws : nat) (o : pydict) (b : bridge) :
  py_get o (lit "cmd") PNone = PStr (lit "hello") ->
  let client_id := py_get o (lit "id") (PStr (lit "")) in
  let client_name := py_get o (lit "name") (PStr (lit "")) in
  let ack := hello_ack client_id client_name in
  let b' := state_after (ws_dispatch ws (PDict o) b) in
  ws_identities b' !! ws = Some (Identity client_id client_name) /\
  tcp_socks b' = tcp_socks b /\
  loop_tasks b' = loop_tasks b /\
  (forall x, x <> ws ->
     web_sock_of (web_socks b') x = web_sock_of (web_socks b) x) /\
  (if printable (py_str client_id) && printable (py_str client_name)
   then
     if ws_open (web_sock_of (web_socks b) ws)
     then ws_dispatch ws (PDict o) b = Continue b' /\
          outbox (web_sock_of (web_socks b') ws)
          = outbox (web_sock_of (web_socks b) ws) ++ [json_dumps ack]
     else ws_dispatch ws (PDict o) b = Propagate WsConnectionClosed b' /\
          web_socks b' = web_socks b
   else ws_dispatch ws (PDict o) b = Propagate UnicodeEncodeError b' /\
        web_socks b' = web_socks b).
Proof.
  intros Hcmd client_id client_name ack. unfold ws_dispatch. rewrite Hcmd.
  replace (py_eq (PStr (lit "hello")) (PStr (lit "hello"))) with true
    by (vm_compute; reflexivity).
  fold client_id client_name. fold ack.
  unfold py_print. cbn [forallb]. rewrite andb_true_r.
  destruct (printable (py_str client_id) && printable (py_str client_name));
    [|simpl; split; [apply lookup_insert_eq|]; repeat split].
  unfold ws_send_to, ws_send. simpl web_socks.
  destruct (ws_open (web_sock_of (web_socks b) ws)) eqn:Eo; simpl.
  - split; [apply lookup_insert_eq|]. split; [reflexivity|].
    split; [reflexivity|]. split.
    + intros x Hne. unfold web_sock_of. rewrite lookup_insert_ne by auto.
      reflexivity.
    + split; [reflexivity|]. unfold web_sock_of at 1.
      rewrite lookup_insert_eq. reflexivity.
  - split; [apply lookup_insert_eq|]. split; [reflexivity|].
    split; [reflexivity|]. split; [reflexivity|]. split; reflexivity.
Qed.



(** X14. A failed forward stays with the connection it failed on.  For
    every live connection an envelope is addressed to, what happens
    depends on its own socket only: a socket that can be written to gets
    the frame, a dead one is left as it was, and in both cases the
    dispatch goes on without an exception and every connection stays
    registered as it was. *)
Theorem forward_failure_is_isolated (ws : nat) (o : pydict) (b : bridge) :
  py_get o (lit "cmd") PNone <> PStr (lit "hello") ->
  let wire := utf8_encode (json_dumps (PDict o)) in
  Z.of_nat (length wire) < 2 ^ 32 ->
  exists b',
    ws_dispatch ws (PDict o) b = Continue b' /\
    tcp_clients b' = tcp_clients b /\
    tcp_identities b' = tcp_identities b /\
    forall conn,
      conn ∈ tcp_clients b ->
      is_target b (py_get o (lit "id") PNone) (py_get o (lit "name") PNone) conn
      = true ->
      if writable (tcp_sock_of b conn) && negb (closed (tcp_sock_of b conn))
      then sent (tcp_sock_of b' conn) = sent (tcp_sock_of b conn) ++ framed wire
      else tcp_sock_of b' conn = tcp_sock_of b conn.
Proof.
  intros Hcmd wire Hlen.
  destruct (ws_dispatch_forward ws o b Hcmd) as (b' & Hd & Hs & Hc & Hi & _).
  fold wire in Hs. exists b'. split; [exact Hd|].
  split; [exact Hc|]. split; [exact Hi|].
  intros conn Hin Ht. rewrite Hs, (bool_decide_eq_true_2 _ Hin), Ht. simpl.
  destruct (writable (tcp_sock_of b conn)) eqn:Ew;
    destruct (closed (tcp_sock_of b conn)) eqn:Ec; simpl.
  - unfold after_send, send_frame, sendall.
    destruct (struct_pack_I _); simpl; rewrite ?Ew, ?Ec; reflexivity.
  - rewrite after_send_framed by assumption. reflexivity.
  - unfold after_send, send_frame, sendall.
    destruct (struct_pack_I _); simpl; rewrite ?Ew, ?Ec; reflexivity.
  - unfold after_send, send_frame, sendall.
    destruct (struct_pack_I _); simpl; rewrite ?Ew, ?Ec; reflexivity.
Qed.

End WsHandlerFacts.

(** ** Registry and broadcasts *)

Section RegistryFacts.
Import Py Core Websockets App.
Context {rt : PyRuntime}.

Lemma app_broadcast_frame (message : pyval) (b : bridge) :
  let b' := broadcast message b in
  tcp_clients b' = tcp_clients b /\
  tcp_identities b' = tcp_identities b /\
  ws_identities b' = ws_identities b /\
  tcp_socks b' = tcp_socks b /\
  loop_tasks b' = loop_tasks b.
Proof.
  unfold broadcast. rewrite app_loop_as_hub. unfold with_hub. simpl. auto.
Qed.


(** X15. The registry of native connections stays consistent: if every
    connection with an identity is a tracked connection, this is still so
    after a native handler has run to its end, after a browser handler
    has, after a broadcast, and at the end of the loop of a native handler
    whose connection is tracked. *)
Theorem registry_stays_consistent (b : bridge) :
  registry_consistent b ->
  (forall conn rx, registry_consistent (fst (handle_tcp_client conn rx b))) /\
  (forall conn rx, conn ∈ tcp_clients b ->
                   registry_consistent (fst (tcp_loop conn rx b))) /\
  (forall ws msgs, registry_consistent (fst (ws_handler ws msgs b))) /\
  (forall message, registry_consistent (broadcast message b)).
Proof.
  intros Hb. split; [|split; [|split]].
  - intros conn rx. unfold handle_tcp_client.
    set (b0 := set_tcp_clients (fun s => s ∪ {[conn]}) b).
    pose proof (tcp_loop_effects conn rx b0) as H.
    destruct (tcp_loop conn rx b0) as [b1 e]. simpl in H.
    destruct H as (Hc & _ & _ & _ & Hother & _ & _).
    intros c Hsome. simpl in *.
    destruct (decide (c = conn)) as [->|Hne].
    + rewrite lookup_delete_eq in Hsome. destruct Hsome as [? ?]. discriminate.
    + rewrite lookup_delete_ne in Hsome by auto.
      destruct (Hother c Hne) as [Hi _]. rewrite Hi in Hsome.
      rewrite Hc. unfold b0. simpl.
      rewrite elem_of_difference, elem_of_union, !elem_of_singleton.
      split; [left; apply Hb; exact Hsome|exact Hne].
  - intros conn rx Hin.
    pose proof (tcp_loop_effects conn rx b) as H.
    destruct H as (Hc & _ & _ & _ & Hother & _ & _).
    intros c Hsome. rewrite Hc.
    destruct (decide (c = conn)) as [->|Hne]; [exact Hin|].
    destruct (Hother c Hne) as [Hi _]. rewrite Hi in Hsome. apply Hb. exact Hsome.
  - intros ws msgs. unfold ws_handler.
    set (b0 := set_ws_clients (fun s => s ∪ {[ws]}) b).
    pose proof (ws_loop_effects ws msgs b0) as H.
    destruct (ws_loop ws msgs b0) as [b1 e]. simpl in H.
    destruct H as (Hc & Hi & _).
    intros c Hsome. simpl in *. rewrite Hi in Hsome. rewrite Hc.
    apply Hb. exact Hsome.
  - intros message.
    destruct (app_broadcast_frame message b) as (Hc & Hi & _).
    intros c Hsome. rewrite Hi in Hsome. rewrite Hc. apply Hb. exact Hsome.
Qed.


End RegistryFacts.

(** ** Controllers and command names, continued *)

Section HelperFacts.
Import Py Core TcpHelpers.
Context {rt : PyRuntime}.













(** One step of [normalize_cmd] for a name that is a string or absent. *)
Lemma normalize_cmd_text (cmd : option pystr) (obj : pydict) (payload : pyval) :
  normalize_cmd (cmd_value cmd) obj payload =
  Ret (PStr
    (if match cmd with
        | Some s => py_truthy (PStr s) && str_endswith s (lit "_result")
        | None => false
        end
     then default (lit "") cmd
     else if negb (is_none payload) && py_in (lit "morphs") obj
             && negb (bool_decide (cmd = Some (lit "read_all_morphs"))
                      || bool_decide (cmd = Some (lit "read_all_morphs_result")))
     then lit "read_all_morphs"
     else if negb (is_none payload) && py_in (lit "controllers") obj
             && negb (bool_decide (cmd = Some (lit "read_all_controllers"))
                      || bool_decide
                           (cmd = Some (lit "read_all_controllers_result")))
     then lit "read_all_controllers"
     else default (lit "") cmd)).
Proof.
  assert (Heq : forall l, py_eq (cmd_value cmd) (PStr l)
                          = bool_decide (cmd = Some l)).
  { intros l. destruct cmd as [s|]; simpl.
    - apply bool_decide_ext. split; congruence.
    - reflexivity. }
  unfold normalize_cmd. rewrite !Heq. clear Heq.
  destruct (is_none payload), (py_in (lit "morphs") obj),
           (py_in (lit "controllers") obj);
    repeat match goal with
           | |- context [bool_decide (@eq (option pystr) ?a ?b)] =>
               destruct (bool_decide (@eq (option pystr) a b))
           end;
    destruct cmd as [s|]; simpl cmd_value; simpl default;
    try reflexivity;
    unfold py_or;
    (destruct (py_truthy (PStr s)) eqn:Ht;
     [ simpl; destruct (str_endswith s (lit "_result")); reflexivity
     | destruct s; [reflexivity|discriminate] ]).
Qed.

(** X20. For an envelope that does not have
    both a [morphs] and a [controllers] key, the rewriting settles in one
    step: the name [normalize_cmd] answers is answered unchanged when it is
    normalised again with the same envelope and payload. *)
Theorem normalize_cmd_settles
    (cmd : option pystr) (obj : pydict) (payload r : pyval) :
  py_in (lit "morphs") obj = false \/ py_in (lit "controllers") obj = false ->
  normalize_cmd (cmd_value cmd) obj payload = Ret r ->
  normalize_cmd r obj payload = Ret r.
Proof.
  intros Hkeys H. rewrite normalize_cmd_text in H.
  destruct (is_none payload) eqn:Ep, (py_in (lit "morphs") obj) eqn:Em,
           (py_in (lit "controllers") obj) eqn:Ec;
    try (destruct Hkeys; discriminate); clear Hkeys;
    (destruct cmd as [s|];
     [ destruct (py_truthy (PStr s) && str_endswith s (lit "_result")) eqn:Er;
       destruct (bool_decide (Some s = Some (lit "read_all_morphs"))) eqn:E1;
       destruct (bool_decide (Some s = Some (lit "read_all_morphs_result")))
         eqn:E2;
       destruct (bool_decide (Some s = Some (lit "read_all_controllers")))
         eqn:E3;
       destruct (bool_decide (Some s = Some (lit "read_all_controllers_result")))
         eqn:E4
     | ]);
    cbn [negb andb orb default] in H; injection H as <-;
    match goal with
    | |- normalize_cmd (PStr ?x) _ _ = _ =>
        change (PStr x) with (cmd_value (Some x)) at 1
    end;
    rewrite normalize_cmd_text, Ep, ?Em, ?Ec;
    repeat match goal with
           | E : _ = true |- _ => rewrite E
           | E : _ = false |- _ => rewrite E
           end;
    reflexivity.
Qed.

(** X21. With a payload and an envelope that
    has both keys the rewriting does not settle: [read_all_morphs] is
    rewritten to [read_all_controllers], and that name back to
    [read_all_morphs]. *)
Theorem normalize_cmd_alternates (obj : pydict) (payload : pyval) :
  payload <> PNone ->
  py_in (lit "morphs") obj = true ->
  py_in (lit "controllers") obj = true ->
  normalize_cmd (PStr (lit "read_all_morphs")) obj payload
  = Ret (PStr (lit "read_all_controllers"))
  /\ normalize_cmd (PStr (lit "read_all_controllers")) obj payload
     = Ret (PStr (lit "read_all_morphs")).
Proof.
  intros Hp Hm Hc.
  assert (Ep : is_none payload = false)
    by (destruct payload; [contradiction Hp|..]; reflexivity).
  split.
  - change (PStr (lit "read_all_morphs"))
      with (cmd_value (Some (lit "read_all_morphs"))) at 1.
    rewrite normalize_cmd_text, Ep, Hm, Hc. reflexivity.
  - change (PStr (lit "read_all_controllers"))
      with (cmd_value (Some (lit "read_all_controllers"))) at 1.
    rewrite normalize_cmd_text, Ep, Hm, Hc. reflexivity.
Qed.

(** X22. The answer is always a string,
    whatever the envelope and the payload, for a name that is a string or
    is false as a condition (absent, null, [0], an empty list or object);
    a name that is true and not a string raises [AttributeError], from
    [cmd.endswith]. *)
Theorem normalize_cmd_answers_text (cmd : pyval) (obj : pydict) (payload : pyval) :
  match cmd with
  | PStr _ => exists s, normalize_cmd cmd obj payload = Ret (PStr s)
  | _ => if py_truthy cmd
         then normalize_cmd cmd obj payload = Raise AttributeError
         else exists s, normalize_cmd cmd obj payload = Ret (PStr s)
  end.
Proof.
  destruct cmd as [|b|z|f|s|l|d].
  - change PNone with (cmd_value None). simpl py_truthy. cbv iota.
    rewrite normalize_cmd_text. eauto.
  - destruct (py_truthy (PBool b)) eqn:Ht; unfold normalize_cmd;
      rewrite Ht; [reflexivity|]. simpl mbind. cbv beta iota.
    unfold py_or. rewrite Ht. simpl py_eq.
    repeat match goal with
           | |- context [if ?c then _ else _] => destruct c
           end; eauto.
  - destruct (py_truthy (PInt z)) eqn:Ht; unfold normalize_cmd;
      rewrite Ht; [reflexivity|]. simpl mbind. cbv beta iota.
    unfold py_or. rewrite Ht. simpl py_eq.
    repeat match goal with
           | |- context [if ?c then _ else _] => destruct c
           end; eauto.
  - destruct (py_truthy (PFloat f)) eqn:Ht; unfold normalize_cmd;
      rewrite Ht; [reflexivity|]. simpl mbind. cbv beta iota.
    unfold py_or. rewrite Ht. simpl py_eq.
    repeat match goal with
           | |- context [if ?c then _ else _] => destruct c
           end; eauto.
  - change (PStr s) with (cmd_value (Some s)).
    rewrite normalize_cmd_text. eauto.
  - destruct (py_truthy (PList l)) eqn:Ht; unfold normalize_cmd;
      rewrite Ht; [reflexivity|]. simpl mbind. cbv beta iota.
    unfold py_or. rewrite Ht. simpl py_eq.
    repeat match goal with
           | |- context [if ?c then _ else _] => destruct c
           end; eauto.
  - destruct (py_truthy (PDict d)) eqn:Ht; unfold normalize_cmd;
      rewrite Ht; [reflexivity|]. simpl mbind. cbv beta iota.
    unfold py_or. rewrite Ht. simpl py_eq.
    repeat match goal with
           | |- context [if ?c then _ else _] => destruct c
           end; eauto.
Qed.

(** X23. [send_ack] never raises.  On a socket
    that can be written it appends exactly one frame, the compact JSON of
    the acknowledgement, provided its length fits the prefix; in every
    other case the socket is as it was.  The acknowledgement answers with
    the command's own [cmd] value when that is true as a condition,
    whatever its type, and with [ok] when it is absent, null or otherwise
    false; [id] and [name] are copied, the empty string standing for a
    missing one. *)
Theorem send_ack_effect (ts : pystr) (conn : tcp_sock) (core : pydict) :
  let wire := utf8_encode (json_dumps_compact (ack_payload ts core)) in
  send_ack ts conn core
  = (if writable conn && negb (closed conn)
        && (Z.of_nat (length wire) <? 2 ^ 32)
     then TcpSock (sent conn ++ framed wire) true false
     else conn)
  /\ exists ack,
       ack_payload ts core
       = PDict [ (lit "cmd", PStr (lit "acknowledge"));
                 (lit "id", default (PStr (lit "")) (dict_lookup (lit "id") core));
                 (lit "name",
                  default (PStr (lit "")) (dict_lookup (lit "name") core));
                 (lit "ack", ack); (lit "ts", PStr ts) ]
       /\ match dict_lookup (lit "cmd") core with
          | Some c => ack = if py_truthy c then c else PStr (lit "ok")
          | None => ack = PStr (lit "ok")
          end.
Proof.
  intros wire. split.
  - unfold send_ack. fold wire. unfold send_frame, struct_pack_I.
    replace (0 <=? Z.of_nat (length wire)) with true
      by (symmetry; apply Z.leb_le; lia).
    destruct (Z.of_nat (length wire) <? 2 ^ 32) eqn:El.
    + simpl. unfold sendall, framed.
      destruct (writable conn), (closed conn); reflexivity.
    + simpl. rewrite andb_false_r. reflexivity.
  - eexists. split; [reflexivity|].
    unfold py_get, py_or.
    destruct (dict_lookup (lit "cmd") core) as [c|]; reflexivity.
Qed.

End HelperFacts.

(** ** The browser handler of ws_hub.py *)

Section HubFacts.
Import Py Websockets WsHub.
Context {rt : PyRuntime} {T : Type}.

Lemma hub_effects_refl (ws : nat) (w : world T) : hub_effects ws w w.
Proof.
  split; [reflexivity|]. split; [auto|].
  exists []. rewrite app_nil_r. split; [reflexivity|constructor].
Qed.

Lemma hub_effects_trans (ws : nat) (w0 w1 w2 : world T) :
  hub_effects ws w0 w1 -> hub_effects ws w1 w2 -> hub_effects ws w0 w2.
Proof.
  intros (Hc1 & Ho1 & a1 & Ha1 & Hf1) (Hc2 & Ho2 & a2 & Ha2 & Hf2).
  split; [congruence|]. split.
  - intros ws' Hne. destruct (Ho1 ws' Hne), (Ho2 ws' Hne).
    split; congruence.
  - exists (a1 ++ a2). rewrite Ha2, Ha1, <- app_assoc.
    split; [reflexivity|]. apply Forall_app. auto.
Qed.

Lemma try_send_effects (ws : nat) (client_id client_name : pyval)
    (w : world T) :
  hub_effects ws w (try_send ws (json_dumps_compact (ack client_id client_name)) w)
  /\ tcp_side (try_send ws (json_dumps_compact (ack client_id client_name)) w)
     = tcp_side w
  /\ ws_identities
       (try_send ws (json_dumps_compact (ack client_id client_name)) w)
     = ws_identities w.
Proof.
  unfold try_send, ws_send.
  destruct (ws_open (web_sock_of (WsHelpers.web_socks (hub w)) ws));
    [|split; [apply hub_effects_refl|split; reflexivity]].
  split; [|split; reflexivity].
  split; [reflexivity|]. split.
  - intros ws' Hne. simpl. rewrite lookup_insert_ne by auto. auto.
  - exists [json_dumps_compact (ack client_id client_name)]. simpl.
    unfold web_sock_of at 1. rewrite lookup_insert_eq. simpl.
    split; [reflexivity|]. constructor; [|constructor].
    exists client_id, client_name. reflexivity.
Qed.



Lemma loop_without_callback (ws : nat) (msgs : list pystr) (w : world T) :
  hub_effects ws w (loop None ws msgs w)
  /\ tcp_side (loop None ws msgs w) = tcp_side w.
Proof.
  revert w. induction msgs as [|msg msgs IH]; intros w; simpl.
  - split; [apply hub_effects_refl|reflexivity].
  - destruct (json_loads msg) as [obj|]; [|apply IH].
    destruct obj; try (split; [apply hub_effects_refl|reflexivity]).
    simpl dispatch.
    destruct (py_truthy (py_get d (lit "cmd") PNone)); simpl negb; cbv iota;
      [|apply IH].
    destruct (py_eq (py_get d (lit "cmd") PNone) (PStr (lit "hello")));
      [|apply IH].
    assert (Hid : forall i, hub_effects ws w
                    (set_identities (insert ws i) w)).
    { intros i. split; [reflexivity|]. split.
      - intros ws' Hne. split; [|reflexivity]. simpl.
        apply lookup_insert_ne. auto.
      - exists []. rewrite app_nil_r. split; [reflexivity|constructor]. }
    destruct (py_print _) as [[]|e0]; [|split; [apply Hid|reflexivity]].
    match goal with
    | |- context [loop None ws msgs ?w1] =>
        destruct (IH w1) as [He Ht]; set (w' := w1) in *
    end.
    match goal with
    | w' := try_send ws (json_dumps_compact (ack ?i ?n)) ?w0 |- _ =>
        destruct (try_send_effects ws i n w0) as (He0 & Ht0 & _);
        fold w' in He0, Ht0
    end.
    split.
    + eapply hub_effects_trans; [|exact He].
      destruct He0 as (Hc & Ho & Ha). split; [exact Hc|]. split.
      * intros ws' Hne. destruct (Ho ws' Hne) as [Hi Hs].
        split; [|exact Hs]. rewrite Hi. simpl.
        apply lookup_insert_ne. auto.
      * exact Ha.
    + rewrite Ht, Ht0. reflexivity.
Qed.

(** X25. While no forward
    callback is registered a browser connection reaches nothing but
    itself: after its handler the TCP side is as before, every other
    browser has its socket and its identity as before, the connection is
    in neither [ws_clients] nor [ws_identities], and all that was sent
    to it are acknowledgements of [hello]. *)
Theorem hub_without_callback_is_inert (ws : nat) (msgs : list pystr)
    (w : world T) :
  let w' := ws_handler None ws msgs w in
  tcp_side w' = tcp_side w
  /\ WsHelpers.ws_clients (hub w') = WsHelpers.ws_clients (hub w) ∖ {[ws]}
  /\ ws_identities w' = delete ws (ws_identities w)
  /\ (forall ws', ws' <> ws ->
        WsHelpers.web_socks (hub w') !! ws' = WsHelpers.web_socks (hub w) !! ws')
  /\ exists acks,
       outbox (web_sock_of (WsHelpers.web_socks (hub w')) ws)
       = outbox (web_sock_of (WsHelpers.web_socks (hub w)) ws) ++ acks
       /\ Forall is_hello_ack acks.
Proof.
  intros w'. unfold w', ws_handler.
  set (w1 := set_clients (fun s => s ∪ {[ws]}) w).
  destruct (loop_without_callback ws msgs w1) as [(Hc & Ho & Ha) Ht].
  simpl. split; [exact Ht|]. split; [|split; [|split]].
  - rewrite Hc. simpl. apply set_eq. intros x.
    rewrite !elem_of_difference, elem_of_union, elem_of_singleton. tauto.
  - apply map_eq. intros ws'. destruct (decide (ws' = ws)) as [->|Hne].
    + rewrite !lookup_delete_eq. reflexivity.
    + rewrite !lookup_delete_ne by auto. apply Ho, Hne.
  - intros ws' Hne. apply Ho, Hne.
  - exact Ha.
Qed.

End HubFacts.

(** * Further examples *)

Section MoreExamples.
Import Py Core Websockets TcpHelpers App RefRuntime.

(** ** Streams *)

Lemma recv_frame_one_by_one_witness :
  exists rx1 rx2,
    recv_frame [ framed (ascii_bytes "hi");
                 framed (ascii_bytes "yo") ++ [Byte.x07] ]
    = Ret (ascii_bytes "hi", rx1) /\
    recv_frame rx1 = Ret (ascii_bytes "yo", rx2) /\
    stream_bytes rx2 = [Byte.x07].
Proof.
  apply (recv_frame_one_by_one (ascii_bytes "hi") (ascii_bytes "yo")
           [Byte.x07]);
    [vm_compute; reflexivity|vm_compute; reflexivity|reflexivity].
Defined.

Lemma recv_frame_ignores_segmentation_witness :
  stream_bytes short_stream = stream_bytes [stream_bytes short_stream] /\
  match recv_frame short_stream, recv_frame [stream_bytes short_stream] with
  | Ret (p1, rest1), Ret (p2, rest2) =>
      p1 = p2 /\ stream_bytes rest1 = stream_bytes rest2
  | Raise e1, Raise e2 => e1 = e2
  | _, _ => False
  end.
Proof.
  split; [reflexivity|].
  apply (recv_frame_ignores_segmentation short_stream
           [stream_bytes short_stream]).
  reflexivity.
Defined.

(** ** The native handler *)

Lemma two_commands_are_commands :
  Forall (fun m => command_frame (fst m) (snd m)) two_commands.
Proof.
  repeat constructor; try (vm_compute; reflexivity);
    try (vm_compute; discriminate).
Qed.

Lemma demo_three_shown : identity_shown demo_bridge 3%nat.
Proof. split; vm_compute; reflexivity. Qed.

Lemma commands_broadcast_in_order_witness :
  snd (handle_tcp_client 3%nat two_commands_stream demo_bridge) = None /\
  loop_tasks (fst (handle_tcp_client 3%nat two_commands_stream demo_bridge))
  = [PDict morphs_query; PDict set_controller_envelope] /\
  sent (tcp_sock_of (fst (handle_tcp_client 3%nat two_commands_stream
                            demo_bridge)) 3%nat) = [].
Proof.
  pose proof (commands_broadcast_in_order 3%nat two_commands
                two_commands_stream demo_bridge
                two_commands_are_commands demo_three_shown eq_refl) as H.
  cbv zeta in H. destruct H as (H1 & H2 & H3).
  split; [exact H1|]. split; [exact H2|exact H3].
Defined.

Lemma bad_frame_ends_the_loop_witness :
  utf8_decode (ascii_bytes "xyz") ≫= json_loads = None /\
  tcp_loop 3%nat [framed (ascii_bytes "xyz"); framed (ascii_bytes "{}")]
    demo_bridge
  = (demo_bridge, None).
Proof.
  assert (Hbad : utf8_decode (ascii_bytes "xyz") ≫= json_loads = None)
    by (vm_compute; reflexivity).
  split; [exact Hbad|].
  assert (Hne : ascii_bytes "xyz" <> []) by (vm_compute; discriminate).
  assert (Hlen : Z.of_nat (length (ascii_bytes "xyz")) < 2 ^ 32)
    by (vm_compute; reflexivity).
  exact (proj1 (bad_frame_ends_the_loop 3%nat (ascii_bytes "xyz")
                  (framed (ascii_bytes "{}"))
                  [framed (ascii_bytes "xyz"); framed (ascii_bytes "{}")]
                  demo_bridge Hne Hlen eq_refl) Hbad).
Defined.

Lemma hello_on_dead_socket_witness :
  writable (tcp_sock_of broken_bridge 3%nat)
  && negb (closed (tcp_sock_of broken_bridge 3%nat)) = false /\
  (snd (handle_tcp_client 3%nat [framed (json_bytes hello_text)] broken_bridge)
   = Some OSError \/
   snd (handle_tcp_client 3%nat [framed (json_bytes hello_text)] broken_bridge)
   = Some StructError) /\
  loop_tasks (fst (handle_tcp_client 3%nat [framed (json_bytes hello_text)]
                     broken_bridge)) = [] /\
  tcp_identities (fst (handle_tcp_client 3%nat [framed (json_bytes hello_text)]
                         broken_bridge)) !! 3%nat = None.
Proof.
  split; [reflexivity|].
  assert (Hne : json_bytes hello_text <> []) by (vm_compute; discriminate).
  assert (Hlen : Z.of_nat (length (json_bytes hello_text)) < 2 ^ 32)
    by (vm_compute; reflexivity).
  assert (Hparse : utf8_decode (json_bytes hello_text) ≫= json_loads
                   = Some (PDict hello_envelope))
    by (vm_compute; reflexivity).
  pose proof (hello_on_dead_socket 3%nat (json_bytes hello_text) []
                hello_envelope [framed (json_bytes hello_text)] broken_bridge
                Hne Hlen (eq_sym (app_nil_r _)) Hparse eq_refl eq_refl) as H.
  cbv zeta in H. destruct H as (_ & H1 & H2 & H3 & _).
  assert (Hpi : shows (py_get hello_envelope (lit "id") (PStr (lit ""))))
    by (vm_compute; reflexivity).
  assert (Hpn : shows (py_get hello_envelope (lit "name") (PStr (lit ""))))
    by (vm_compute; reflexivity).
  split; [exact (H1 Hpi Hpn)|]. split; [exact H2|exact H3].
Defined.

(** ** The browser handler *)

Lemma ws_hello_answered_in_private_witness :
  py_get hello_envelope (lit "cmd") PNone = PStr (lit "hello") /\
  ws_identities (state_after (ws_dispatch 10%nat (PDict hello_envelope)
                                demo_bridge)) !! 10%nat
  = Some (Identity (PStr (lit "p3")) (PStr (lit "PluginC"))) /\
  tcp_socks (state_after (ws_dispatch 10%nat (PDict hello_envelope) demo_bridge))
  = tcp_socks demo_bridge /\
  loop_tasks (state_after (ws_dispatch 10%nat (PDict hello_envelope)
                             demo_bridge)) = [].
Proof.
  split; [reflexivity|].
  pose proof (ws_hello_answered_in_private 10%nat hello_envelope demo_bridge
                eq_refl) as H.
  cbv zeta in H. destruct H as (H1 & H2 & H3 & _).
  split; [exact H1|]. split; [exact H2|exact H3].
Defined.



Lemma forward_failure_is_isolated_witness :
  (is_target twin_bridge (PStr (lit "p1")) (PStr (lit "PluginA")) 1%nat = true /\
   writable (tcp_sock_of twin_bridge 1%nat) = false) /\
  exists b',
    ws_dispatch 10%nat (PDict morphs_query) twin_bridge = Continue b' /\
    tcp_sock_of b' 1%nat = tcp_sock_of twin_bridge 1%nat /\
    sent (tcp_sock_of b' 2%nat) = framed (json_bytes morphs_query_text) /\
    1%nat ∈ tcp_clients b' /\
    tcp_identities b' !! 1%nat = Some plugin_a.
Proof.
  split; [split; reflexivity|].
  assert (Hcmd : py_get morphs_query (lit "cmd") PNone <> PStr (lit "hello"))
    by (vm_compute; discriminate).
  assert (Hlen : Z.of_nat (length (utf8_encode (json_dumps (PDict morphs_query))))
                 < 2 ^ 32) by (vm_compute; reflexivity).
  destruct (forward_failure_is_isolated 10%nat morphs_query twin_bridge
              Hcmd Hlen) as (b' & Hd & Hc & Hi & Hall).
  exists b'. split; [exact Hd|].
  assert (Hin1 : 1%nat ∈ tcp_clients twin_bridge) by (vm_compute; reflexivity).
  assert (Hin2 : 2%nat ∈ tcp_clients twin_bridge) by (vm_compute; reflexivity).
  pose proof (Hall 1%nat Hin1 eq_refl) as H1.
  pose proof (Hall 2%nat Hin2 eq_refl) as H2.
  change (writable (tcp_sock_of twin_bridge 1%nat)
          && negb (closed (tcp_sock_of twin_bridge 1%nat))) with false in H1.
  change (writable (tcp_sock_of twin_bridge 2%nat)
          && negb (closed (tcp_sock_of twin_bridge 2%nat))) with true in H2.
  cbv iota in H1, H2.
  split; [exact H1|]. split; [rewrite H2; vm_compute; reflexivity|].
  split; [rewrite Hc; exact Hin1|rewrite Hi; reflexivity].
Defined.

(** ** The registries *)

Lemma demo_bridge_consistent : registry_consistent demo_bridge.
Proof.
  intros conn [ident Hi]. unfold demo_bridge in Hi. simpl in Hi.
  apply lookup_insert_Some in Hi as [[<- _]|[_ Hi]];
    [vm_compute; reflexivity|].
  apply lookup_insert_Some in Hi as [[<- _]|[_ Hi]];
    [vm_compute; reflexivity|].
  rewrite lookup_empty in Hi. discriminate.
Qed.

Lemma registry_stays_consistent_witness :
  registry_consistent demo_bridge /\
  registry_consistent
    (fst (handle_tcp_client 3%nat [framed (json_bytes hello_text)] demo_bridge))
  /\ registry_consistent
       (fst (ws_handler 10%nat [json_lit morphs_query_text] demo_bridge)).
Proof.
  split; [exact demo_bridge_consistent|].
  destruct (registry_stays_consistent demo_bridge demo_bridge_consistent)
    as (Htcp & _ & Hws & _).
  split; [apply Htcp|apply Hws].
Defined.



(** ** Controllers and command names *)




Lemma normalize_cmd_settles_witness :
  py_in (lit "controllers") morphs_envelope = false /\
  normalize_cmd (PStr (lit "x")) morphs_envelope (PList [PInt 1])
  = Ret (PStr (lit "read_all_morphs")) /\
  normalize_cmd (PStr (lit "read_all_morphs")) morphs_envelope (PList [PInt 1])
  = Ret (PStr (lit "read_all_morphs")).
Proof.
  split; [reflexivity|]. split; [vm_compute; reflexivity|].
  exact (normalize_cmd_settles (Some (lit "x")) morphs_envelope
           (PList [PInt 1]) (PStr (lit "read_all_morphs"))
           (or_intror eq_refl) eq_refl).
Defined.

Lemma normalize_cmd_alternates_witness :
  normalize_cmd (PStr (lit "read_all_morphs")) both_keys_envelope (PList [])
  = Ret (PStr (lit "read_all_controllers"))
  /\ normalize_cmd (PStr (lit "read_all_controllers")) both_keys_envelope
       (PList [])
     = Ret (PStr (lit "read_all_morphs")).
Proof.
  assert (Hp : PList [] <> PNone) by discriminate.
  exact (normalize_cmd_alternates both_keys_envelope (PList []) Hp
           eq_refl eq_refl).
Defined.

End MoreExamples.
